(** * analyze_health_data.py: a shallow embedding and its properties

    The script loads a CSV file of sensor readings with [np.genfromtxt],
    averages three integer columns, counts threshold exceedances, renders a
    fixed text report and writes it under [output/].

    The embedding follows the script function by function.  The library
    calls it makes (NumPy's [genfromtxt] with the file lookup of its
    [DataSource], [mean] and comparisons, Python's
    [float], [int], [str.split], [str.strip], format specifier [.1f],
    [os.path.dirname], [os.makedirs] and [open]) are modelled next to it:
    - Python exceptions are an error monad over an explicit world
      (file system, working directory, standard output);
    - binary64 values are [spec_float] with the reference operations of
      [SpecFloat] at precision 53 and maximal exponent 1024;
    - the file system is a tree of directories and regular files, addressed
      by POSIX path strings that are resolved component by component;
    - text is ASCII: a file is the sequence of its characters. *)

From Stdlib Require Import ZArith String Ascii List Lia.
From Stdlib Require Import Floats.SpecFloat.
From stdpp Require Import base option gmap strings list pretty.

Local Open Scope string_scope.
Local Open Scope Z_scope.

(** ** Python exceptions and the world *)

Inductive exn :=
  | FileNotFoundError
  | FileExistsError
  | IsADirectoryError
  | NotADirectoryError
  | PermissionError
  | ValueError
  | OverflowError
  | TypeError
  | RecursionError
  | BadGzipFile
  | EOFError
  | KeyError (key : string).

Inductive result (A : Type) :=
  | Ok (a : A)
  | Raise (e : exn).
Arguments Ok {A} a.
Arguments Raise {A} e.


Definition rbind {A B} (r : result A) (k : A -> result B) : result B :=
  match r with
  | Ok a => k a
  | Raise e => Raise e
  end.

(** ** Python string operations *)

Module pystr.

Definition is_char (c d : ascii) : bool := bool_decide (c = d).

(** [s.split(sep)] for a one-character separator: at least one piece. *)
Fixpoint split (sep : ascii) (s : string) : list string :=
  match s with
  | EmptyString => [EmptyString]
  | String c r =>
      if is_char c sep then EmptyString :: split sep r
      else match split sep r with
           | h :: t => String c h :: t
           | [] => [String c EmptyString]
           end
  end.

(** [s.lstrip(chars)] and [s.rstrip(chars)], [chars] given as a test. *)
Fixpoint lstrip (f : ascii -> bool) (s : string) : string :=
  match s with
  | EmptyString => EmptyString
  | String c r => if f c then lstrip f r else s
  end.

Fixpoint rstrip (f : ascii -> bool) (s : string) : string :=
  match s with
  | EmptyString => EmptyString
  | String c r =>
      match rstrip f r with
      | EmptyString => if f c then EmptyString else String c EmptyString
      | r' => String c r'
      end
  end.

Definition strip (f : ascii -> bool) (s : string) : string :=
  rstrip f (lstrip f s).

(** [s[:n]] *)
Fixpoint take (n : nat) (s : string) : string :=
  match n, s with
  | S n', String c r => String c (take n' r)
  | _, _ => EmptyString
  end.

Fixpoint all (f : ascii -> bool) (s : string) : bool :=
  match s with
  | EmptyString => true
  | String c r => f c && all f r
  end.

Fixpoint mem (c : ascii) (s : string) : bool :=
  match s with
  | EmptyString => false
  | String d r => is_char d c || mem c r
  end.

(** ASCII lower case, as [str.lower] acts on ASCII letters. *)
Definition lower_char (c : ascii) : ascii :=
  let n := nat_of_ascii c in
  if (65 <=? n)%nat && (n <=? 90)%nat then ascii_of_nat (n + 32) else c.

Fixpoint lower (s : string) : string :=
  match s with
  | EmptyString => EmptyString
  | String c r => String (lower_char c) (lower r)
  end.

(** [str(n)] for an [int]. *)
Definition of_int (n : Z) : string := pretty n.

(** [sep.join(l)] *)
Fixpoint join (sep : string) (l : list string) : string :=
  match l with
  | [] => EmptyString
  | [x] => x
  | x :: r => x ++ sep ++ join sep r
  end.

End pystr.

(** ** Python floats (IEEE 754 binary64) *)

Module pyfloat.

Definition prec : Z := 53.
Definition emax : Z := 1024.

(** [float(n)] for an [int]: the nearest binary64. *)
Definition of_int (n : Z) : spec_float := binary_normalize prec emax n 0 false.

(** [x / y] *)
Definition div (x y : spec_float) : spec_float := SFdiv prec emax x y.

(** The nearest binary64 to [m * 10^e], [m > 0]: the correctly rounded
    conversion that [float(str)] performs. *)
Definition of_decimal (neg : bool) (m : positive) (e : Z) : spec_float :=
  match e with
  | Zneg k => div (S754_finite neg m 0) (S754_finite false (10 ^ k)%positive 0)
  | _ => binary_normalize prec emax ((if neg then Z.neg m else Z.pos m) * 10 ^ e) 0 false
  end.

Definition is_digit (c : ascii) : bool :=
  let n := nat_of_ascii c in (48 <=? n)%nat && (n <=? 57)%nat.

Definition digit (c : ascii) : Z := Z.of_nat (nat_of_ascii c) - 48.

(** The characters that [float] strips from both ends of an ASCII text:
    those of [Py_ISSPACE], the characters 9 to 13 and the space. *)
Definition is_space (c : ascii) : bool :=
  let n := nat_of_ascii c in
  ((9 <=? n)%nat && (n <=? 13)%nat) || (n =? 32)%nat.

(** digitpart ::= digit (["_"] digit)*, after its first digit: the value
    read so far, the number of digits read, and the rest of the text. *)
Fixpoint digitpart_rest (acc : Z) (n : nat) (s : string) : Z * nat * string :=
  match s with
  | String c r =>
      if is_digit c then digitpart_rest (acc * 10 + digit c) (S n) r
      else if pystr.is_char c "_" then
        match r with
        | String d r' =>
            if is_digit d then digitpart_rest (acc * 10 + digit d) (S n) r'
            else (acc, n, s)
        | EmptyString => (acc, n, s)
        end
      else (acc, n, s)
  | EmptyString => (acc, n, s)
  end.

Definition digitpart (acc : Z) (s : string) : option (Z * nat * string) :=
  match s with
  | String c r =>
      if is_digit c then Some (digitpart_rest (acc * 10 + digit c) 1 r) else None
  | EmptyString => None
  end.

(** number ::= [digitpart] "." digitpart | digitpart ["."]: the digits as
    one integer, the number of digits after the point, the rest. *)
Definition number (s : string) : option (Z * nat * string) :=
  match digitpart 0 s with
  | Some (ip, _, String "." r) =>
      match digitpart ip r with
      | Some (m, nfrac, rest) => Some (m, nfrac, rest)
      | None => Some (ip, 0%nat, r)
      end
  | Some (ip, _, rest) => Some (ip, 0%nat, rest)
  | None =>
      match s with
      | String "." r => digitpart 0 r
      | _ => None
      end
  end.

Definition sign (s : string) : bool * string :=
  match s with
  | String "-" r => (true, r)
  | String "+" r => (false, r)
  | _ => (false, s)
  end.

(** exponent ::= ("e" | "E") [sign] digitpart, up to the end of the text;
    no exponent at the end of the text is exponent 0. *)
Definition exponent (s : string) : option Z :=
  match s with
  | EmptyString => Some 0
  | String c r =>
      if pystr.is_char c "e" || pystr.is_char c "E" then
        let '(neg, r1) := sign r in
        match digitpart 0 r1 with
        | Some (v, _, EmptyString) => Some (if neg then - v else v)
        | _ => None
        end
      else None
  end.

Definition finite_literal (neg : bool) (s : string) : option spec_float :=
  match number s with
  | Some (m, nfrac, rest) =>
      match exponent rest with
      | Some ex =>
          match m with
          | Zpos p => Some (of_decimal neg p (ex - Z.of_nat nfrac))
          | _ => Some (S754_zero neg)
          end
      | None => None
      end
  | None => None
  end.

(** [float(s)]: [None] stands for the ValueError of an unparsable text. *)
Definition parse (s : string) : option spec_float :=
  let '(neg, body) := sign (pystr.strip is_space s) in
  let low := pystr.lower body in
  if bool_decide (low = "inf") || bool_decide (low = "infinity")
  then Some (S754_infinity neg)
  else if bool_decide (low = "nan") then Some S754_nan
  else finite_literal neg body.

(** [int(x)]: truncation towards zero. *)
Definition to_int (x : spec_float) : result Z :=
  match x with
  | S754_zero _ => Ok 0
  | S754_infinity _ => Raise OverflowError
  | S754_nan => Raise ValueError
  | S754_finite s m e =>
      let a := match e with
               | Zneg k => Z.pos m / 2 ^ Z.pos k
               | _ => Z.pos m * 2 ^ e
               end in
      Ok (if s then - a else a)
  end.

(** The integer nearest to [n / d], ties to the even one ([0 <= n], [0 < d]). *)
Definition round_half_even (n d : Z) : Z :=
  let q := n / d in
  let r := n mod d in
  match 2 * r ?= d with
  | Lt => q
  | Gt => q + 1
  | Eq => if Z.even q then q else q + 1
  end.

(** The number of tenths nearest to [m * 2^e]. *)
Definition tenths (m : positive) (e : Z) : Z :=
  match e with
  | Zneg k => round_half_even (Z.pos m * 10) (2 ^ Z.pos k)
  | _ => Z.pos m * 10 * 2 ^ e
  end.

Definition fixed1 (neg : bool) (t : Z) : string :=
  (if neg then "-" else "") ++ pystr.of_int (t / 10) ++ "." ++ pystr.of_int (t mod 10).

(** [format(x, ".1f")]: the exact value of [x] rounded to one decimal,
    ties to even, all integer digits written out. *)
Definition format_1f (x : spec_float) : string :=
  match x with
  | S754_nan => "nan"
  | S754_infinity s => if s then "-inf" else "inf"
  | S754_zero s => fixed1 s 0
  | S754_finite s m e => fixed1 s (tenths m e)
  end.

(** Rounding to binary32, as storing into an ['f4'] field does. *)
Definition to_f4 (x : spec_float) : spec_float :=
  match x with
  | S754_finite s m e => binary_round 24 128 s m e
  | _ => x
  end.

End pyfloat.

(** ** The file system and the world

    A tree of directories and regular files.  A regular file carries a
    read and a write permission, a directory the permission to add entries.
    There are no symbolic links. *)

#[warnings="-register-all"]
Inductive node :=
  | File (readable writable : bool) (content : string)
  | Dir (writable : bool) (entries : gmap string node).

(** The readers of compressed streams that [np.genfromtxt] can go through
    ([bz2.open], [gzip.open], [lzma.open]). *)
Inductive codec := Bz2 | Gzip | Lzma.

(** The world: the file tree, the working directory, the lines printed,
    and the decompressors.  What [bz2], [zlib] and [lzma] read from the
    bytes of a file is a function of these bytes that is not defined here:
    a world fixes it, the text or the exception, for every content. *)
Record world := World {
  root : node;
  cwd : list string;
  stdout : list string;
  decompress : codec -> string -> result string
}.

(** Computations that read and change the world and may raise. *)
Definition M (A : Type) : Type := world -> result A * world.

Definition ret {A} (a : A) : M A := fun w => (Ok a, w).
Definition raise {A} (e : exn) : M A := fun w => (Raise e, w).
Definition lift {A} (r : result A) : M A := fun w => (r, w).
Definition bind {A B} (m : M A) (k : A -> M B) : M B :=
  fun w => match m w with
           | (Ok a, w') => k a w'
           | (Raise e, w') => (Raise e, w')
           end.

Notation "'let!' x ':=' m 'in' k" := (bind m (fun x => k))
  (at level 10, x pattern, m at level 100, k at level 200).

Module fstree.

(** The node at a path of names below [n]. *)
Fixpoint lookup (n : node) (p : list string) : option node :=
  match p with
  | [] => Some n
  | c :: p' =>
      match n with
      | Dir _ ents =>
          match ents !! c with
          | Some n' => lookup n' p'
          | None => None
          end
      | File _ _ _ => None
      end
  end.

(** Put [new] at path [p]; the parent of [p] has to be a directory. *)
Fixpoint update (n : node) (p : list string) (new : node) : node :=
  match p with
  | [] => new
  | c :: p' =>
      match n with
      | Dir wr ents =>
          match p' with
          | [] => Dir wr (<[c := new]> ents)
          | _ =>
              match ents !! c with
              | Some n' => Dir wr (<[c := update n' p' new]> ents)
              | None => n
              end
          end
      | File _ _ _ => n
      end
  end.

(** Resolution of the components of a path string, from directory [cur]:
    every component is looked up in a directory that exists. *)
Fixpoint walk (rt : node) (cur : list string) (comps : list string)
  : result (list string) :=
  match comps with
  | [] => Ok cur
  | c :: rest =>
      match lookup rt cur with
      | Some (Dir _ _) =>
          if bool_decide (c = "") || bool_decide (c = ".") then walk rt cur rest
          else if bool_decide (c = "..") then walk rt (removelast cur) rest
          else walk rt (cur ++ [c]) rest
      | Some (File _ _ _) => Raise NotADirectoryError
      | None => Raise FileNotFoundError
      end
  end.

Definition is_absolute (path : string) : bool :=
  match path with
  | String "/" _ => true
  | _ => false
  end.

Definition resolve (w : world) (path : string) : result (list string) :=
  if bool_decide (path = "") then Raise FileNotFoundError
  else walk (root w) (if is_absolute path then [] else cwd w)
            (pystr.split "/" path).

(** [os.stat] *)
Definition stat (w : world) (path : string) : result node :=
  rbind (resolve w path) (fun p =>
    match lookup (root w) p with
    | Some n => Ok n
    | None => Raise FileNotFoundError
    end).

Definition set_root (w : world) (r : node) : world :=
  World r (cwd w) (stdout w) (decompress w).

Definition parent (p : list string) : list string := removelast p.

End fstree.

Module os.

Module path.

Definition is_slash (c : ascii) : bool := pystr.is_char c "/".

(** [p[:i], p[i:]] for [i = p.rfind('/') + 1]. *)
Fixpoint rsplit (p : string) : string * string :=
  match p with
  | EmptyString => (EmptyString, EmptyString)
  | String c r =>
      let '(h, t) := rsplit r in
      match h with
      | EmptyString =>
          if is_slash c then (String c EmptyString, t)
          else (EmptyString, String c t)
      | _ => (String c h, t)
      end
  end.

(** [posixpath.split] *)
Definition split (p : string) : string * string :=
  let '(head, tail) := rsplit p in
  let head' :=
    if negb (bool_decide (head = "")) && negb (pystr.all is_slash head)
    then pystr.rstrip is_slash head else head in
  (head', tail).

(** [posixpath.dirname] *)
Definition dirname (p : string) : string := fst (split p).

(** The text before the last dot of [s] and the text from that dot on. *)
Fixpoint rsplit_dot (s : string) : option (string * string) :=
  match s with
  | EmptyString => None
  | String c r =>
      match rsplit_dot r with
      | Some (stem, ext) => Some (String c stem, ext)
      | None => if pystr.is_char c "." then Some (EmptyString, s) else None
      end
  end.

(** [posixpath.splitext]: the extension starts at the last dot of the last
    component, unless only dots come before it in that component. *)
Definition splitext (p : string) : string * string :=
  let '(head, tail) := rsplit p in
  match rsplit_dot tail with
  | Some (stem, ext) =>
      if pystr.all (fun c => pystr.is_char c ".") stem then (p, EmptyString)
      else (head ++ stem, ext)
  | None => (p, EmptyString)
  end.

Definition exists_ (p : string) (w : world) : bool :=
  match fstree.stat w p with
  | Ok _ => true
  | Raise _ => false
  end.

Definition isdir (p : string) (w : world) : bool :=
  match fstree.stat w p with
  | Ok (Dir _ _) => true
  | _ => false
  end.

End path.

(** [os.mkdir] *)
Definition mkdir (name : string) : M unit := fun w =>
  match fstree.resolve w name with
  | Raise e => (Raise e, w)
  | Ok p =>
      match fstree.lookup (root w) p with
      | Some _ => (Raise FileExistsError, w)
      | None =>
          match fstree.lookup (root w) (fstree.parent p) with
          | Some (Dir true _) =>
              (Ok tt, fstree.set_root w (fstree.update (root w) p (Dir true ∅)))
          | Some (Dir false _) => (Raise PermissionError, w)
          | Some (File _ _ _) => (Raise NotADirectoryError, w)
          | None => (Raise FileNotFoundError, w)
          end
      end
  end.

(** The last statement of [os.makedirs(name, exist_ok=True)]: [mkdir(name)],
    whose OSError is dropped when [name] is a directory. *)
Definition mkdir_exist_ok (name : string) : M unit := fun w =>
  match mkdir name w with
  | (Ok u, w') => (Ok u, w')
  | (Raise e, w') =>
      if path.isdir name w' then (Ok tt, w') else (Raise e, w')
  end.

(** [os.makedirs(name, exist_ok=True)].  The recursion is on the head of
    [name], which is shorter than [name]; [fuel] bounds its depth. *)
Fixpoint makedirs_rec (fuel : nat) (name : string) : M unit := fun w =>
  match fuel with
  | O => (Raise RecursionError, w)
  | S fuel' =>
      let '(head, tail) := path.split name in
      let '(head, tail) :=
        if bool_decide (tail = "") then path.split head else (head, tail) in
      if negb (bool_decide (head = "")) && negb (bool_decide (tail = ""))
         && negb (path.exists_ head w)
      then
        match makedirs_rec fuel' head w with
        | (Ok _, w1) | (Raise FileExistsError, w1) =>
            if bool_decide (tail = ".") then (Ok tt, w1)
            else mkdir_exist_ok name w1
        | (Raise e, w1) => (Raise e, w1)
        end
      else mkdir_exist_ok name w
  end.

Definition makedirs (name : string) : M unit :=
  makedirs_rec (S (String.length name)) name.

End os.

(** [with open(filename, 'w') as f: f.write(text)] *)
Definition write_text (filename text : string) : M unit := fun w =>
  match fstree.resolve w filename with
  | Raise e => (Raise e, w)
  | Ok p =>
      match fstree.lookup (root w) p with
      | Some (Dir _ _) => (Raise IsADirectoryError, w)
      | Some (File rd true _) =>
          (Ok tt, fstree.set_root w (fstree.update (root w) p (File rd true text)))
      | Some (File _ false _) => (Raise PermissionError, w)
      | None =>
          match fstree.lookup (root w) (fstree.parent p) with
          | Some (Dir true _) =>
              (Ok tt, fstree.set_root w (fstree.update (root w) p (File true true text)))
          | Some (Dir false _) => (Raise PermissionError, w)
          | Some (File _ _ _) => (Raise NotADirectoryError, w)
          | None => (Raise FileNotFoundError, w)
          end
      end
  end.

(** [open(filename, 'rt').read()] *)
Definition read_text (filename : string) : M string := fun w =>
  match fstree.resolve w filename with
  | Raise e => (Raise e, w)
  | Ok p =>
      match fstree.lookup (root w) p with
      | Some (File true _ c) => (Ok c, w)
      | Some (File false _ _) => (Raise PermissionError, w)
      | Some (Dir _ _) => (Raise IsADirectoryError, w)
      | None => (Raise FileNotFoundError, w)
      end
  end.

(** [print(s)] *)
Definition print (s : string) : M unit := fun w =>
  (Ok tt, World (root w) (cwd w) (stdout w ++ [s]) (decompress w)).

(** ** The rows of the table

    One element of the structured array of [load_data]: the dtype has two
    short strings, three ['i4'] integers, an ['f4'] float, an ['i4'] integer
    and a short string. *)

Record Reading := {
  patient_id : string;
  timestamp : string;
  heart_rate : Z;
  blood_pressure_systolic : Z;
  blood_pressure_diastolic : Z;
  temperature : spec_float;
  glucose_level : Z;
  sensor_id : string
}.

Definition int32 (z : Z) : Prop := (- 2 ^ 31 <= z < 2 ^ 31)%Z.

Definition in_int32 (z : Z) : bool := ((- 2 ^ 31 <=? z) && (z <? 2 ^ 31))%Z.

(** The integer fields of a row hold 32-bit values. *)
Definition Reading_ok (r : Reading) : Prop :=
  int32 (heart_rate r) /\ int32 (blood_pressure_systolic r) /\
  int32 (blood_pressure_diastolic r) /\ int32 (glucose_level r).

(** ** NumPy *)

Module np.

(** Arrays of dimension zero and one, the two shapes [genfromtxt] returns
    for a structured dtype. *)
Inductive ndarray (A : Type) :=
  | Scalar (x : A)
  | Vector (l : list A).
Arguments Scalar {A} x.
Arguments Vector {A} l.

Definition items {A} (a : ndarray A) : list A :=
  match a with
  | Scalar x => [x]
  | Vector l => l
  end.

(** [a[field]] and elementwise operations keep the shape. *)
Definition map {A B} (f : A -> B) (a : ndarray A) : ndarray B :=
  match a with
  | Scalar x => Scalar (f x)
  | Vector l => Vector (List.map f l)
  end.

(** [len(a)]: an array of dimension zero has no length. *)
Definition len {A} (a : ndarray A) : result Z :=
  match a with
  | Scalar _ => Raise TypeError
  | Vector l => Ok (Z.of_nat (length l))
  end.

(** [a > k] *)
Definition gt (a : ndarray Z) (k : Z) : ndarray bool :=
  map (fun x => k <? x) a.

Fixpoint count_true (l : list bool) : Z :=
  match l with
  | [] => 0
  | b :: r => (if b then 1 else 0) + count_true r
  end.

(** [a.sum()] of a boolean array: the number of [True] elements. *)
Definition sum_bool (a : ndarray bool) : Z := count_true (items a).

Fixpoint sum_list (l : list Z) : Z :=
  match l with
  | [] => 0
  | x :: r => x + sum_list r
  end.

(** [a.mean()] of an integer array: the elements are added as binary64
    values and the sum is divided by the number of elements.  The partial
    sums of 32-bit integers are integers below [2^53] in absolute value
    for up to [2^22] elements, so every addition is exact there and the
    sum is the conversion of the integer sum. *)
Definition mean (a : ndarray Z) : spec_float :=
  pyfloat.div (pyfloat.of_int (sum_list (items a)))
              (pyfloat.of_int (Z.of_nat (length (items a)))).

(** [np.squeeze]: a one-element vector becomes an array of dimension zero. *)
Definition squeeze {A} (a : ndarray A) : ndarray A :=
  match a with
  | Vector [x] => Scalar x
  | _ => a
  end.

(** *** [genfromtxt] *)

Definition LF : ascii := "010"%char.
Definition CR : ascii := "013"%char.

(** The lines of a text file read with universal newlines, without their
    terminators. *)
Fixpoint splitlines (s : string) : list string :=
  match s with
  | EmptyString => []
  | String c r =>
      if pystr.is_char c LF then EmptyString :: splitlines r
      else if pystr.is_char c CR then
        match r with
        | String d r' =>
            if pystr.is_char d LF then EmptyString :: splitlines r'
            else EmptyString :: splitlines r
        | EmptyString => [EmptyString]
        end
      else
        match splitlines r with
        | h :: t => String c h :: t
        | [] => [String c EmptyString]
        end
  end.

Definition is_blank (c : ascii) : bool :=
  pystr.is_char c " " || pystr.is_char c CR || pystr.is_char c LF.

(** [LineSplitter(delimiter=',', comments='#', autostrip=False)]: cut the
    comment off, strip blanks and line ends, split at the commas; an
    empty line has no values. *)
Definition split_line (line : string) : list string :=
  let line := hd EmptyString (pystr.split "#" line) in
  let line := pystr.strip is_blank line in
  if bool_decide (line = "") then [] else pystr.split "," line.

Inductive pyval :=
  | PInt (z : Z)
  | PFloat (x : spec_float)
  | PStr (s : string).

(** The converters of the three kinds of column, called loosely: a
    ValueError of the conversion gives the default of the column ([-1],
    [nan]); other exceptions propagate.  An integer column converts with
    [int(float(x))]. *)
Definition conv_int (s : string) : result pyval :=
  match pyfloat.parse s with
  | None => Ok (PInt (-1))
  | Some x =>
      match pyfloat.to_int x with
      | Ok z => Ok (PInt z)
      | Raise ValueError => Ok (PInt (-1))
      | Raise e => Raise e
      end
  end.

Definition conv_float (s : string) : result pyval :=
  match pyfloat.parse s with
  | None => Ok (PFloat S754_nan)
  | Some x => Ok (PFloat x)
  end.

Definition conv_str (s : string) : result pyval := Ok (PStr s).

(** One converter per field of the dtype of [load_data]. *)
Definition converters : list (string -> result pyval) :=
  [conv_str; conv_str; conv_int; conv_int; conv_int; conv_float; conv_int; conv_str].

Fixpoint sequence {A} (l : list (result A)) : result (list A) :=
  match l with
  | [] => Ok []
  | r :: rest =>
      rbind r (fun a => rbind (sequence rest) (fun l' => Ok (a :: l')))
  end.

(** The converters are paired with the values of a row; surplus values
    and surplus converters are dropped by the pairing. *)
Definition convert_row (values : list string) : result (list pyval) :=
  sequence (zip_with (fun conv v => conv v) converters values).

(** A converted tuple goes into an element of the structured array: it
    has to have one value per field, an integer has to fit its ['i4']
    field, a float is rounded to ['f4'], a string is cut to the width of
    its field. *)
Definition to_element (t : list pyval) : result Reading :=
  match t with
  | [PStr a; PStr b; PInt c; PInt d; PInt e; PFloat f; PInt g; PStr h] =>
      if in_int32 c && in_int32 d && in_int32 e && in_int32 g
      then Ok {| patient_id := pystr.take 10 a;
                 timestamp := pystr.take 20 b;
                 heart_rate := c;
                 blood_pressure_systolic := d;
                 blood_pressure_diastolic := e;
                 temperature := pyfloat.to_f4 f;
                 glucose_level := g;
                 sensor_id := pystr.take 10 h |}
      else Raise OverflowError
  | _ => Raise ValueError
  end.

(** The rows of values of a file: the lines after the header that have
    values. *)
Definition value_rows (content : string) : list (list string) :=
  List.filter (fun vs => negb (bool_decide (vs = [])))
              (List.map split_line (tl (splitlines content))).

(** The parsing of [genfromtxt(..., delimiter=',', dtype=dtype,
    skip_header=1)] on the text of the file.  The number of columns is
    that of the first row of values; a row with another number of values
    is an error; the result is squeezed. *)
Definition parse (content : string) : result (ndarray Reading) :=
  let rows := value_rows content in
  match rows with
  | [] => Ok (Vector [])
  | first :: _ =>
      let nbcols := length first in
      if forallb (fun vs => Nat.eqb (length vs) nbcols) rows then
        rbind (sequence (List.map convert_row rows)) (fun tuples =>
        rbind (sequence (List.map to_element tuples)) (fun elements =>
        Ok (squeeze (Vector elements))))
      else Raise ValueError
  end.

(** *** [numpy.lib._datasource]

    [genfromtxt] opens a file name through [DataSource.open].  The model
    covers the names that [DataSource] treats as names of local files;
    [DataSource] also parses a name as a URL and looks it up below its
    destination directory, which is the working directory, and for the
    local names of the properties below this finds the same files. *)

Module datasource.

(** The extensions of [_file_openers], in the order of its keys. *)
Definition zip_exts : list string := [".bz2"; ".gz"; ".xz"; ".lzma"].

(** [DataSource._iszip] *)
Definition iszip (filename : string) : bool :=
  bool_decide (snd (os.path.splitext filename) ∈ zip_exts).

(** [DataSource._possible_names] *)
Definition possible_names (filename : string) : list string :=
  filename ::
  (if iszip filename then [] else List.map (fun ext => filename ++ ext) zip_exts).

(** [DataSource._findfile]: the first possible name that exists. *)
Definition findfile (path : string) (w : world) : option string :=
  List.find (fun name => os.path.exists_ name w) (possible_names path).

(** The opener of [_file_openers] for a name that was found: none stands
    for the built-in [open]. *)
Definition opener (found : string) : option codec :=
  let ext := snd (os.path.splitext found) in
  if bool_decide (ext = ".bz2") then Some Bz2
  else if bool_decide (ext = ".gz") then Some Gzip
  else if bool_decide (ext = ".xz") || bool_decide (ext = ".lzma") then Some Lzma
  else None.

(** Reading through [gzip.open]: an empty file reads as an empty text, a
    file that does not start with the magic number [1f 8b] raises
    BadGzipFile, and the rest is up to [zlib]. *)
Definition gzip_read (w : world) (bytes : string) : result string :=
  match bytes with
  | EmptyString => Ok EmptyString
  | String "031" (String "139" _) => decompress w Gzip bytes
  | _ => Raise BadGzipFile
  end.

Definition decode (w : world) (c : codec) (bytes : string) : result string :=
  match c with
  | Gzip => gzip_read w bytes
  | _ => decompress w c bytes
  end.

(** [DataSource.open(path, 'rt')] and the reading of the whole file: a
    name that is not found raises FileNotFoundError; a name that is found
    is opened by the opener of its extension, which opens the file as the
    built-in [open] does before it decodes anything. *)
Definition open_read (path : string) : M string := fun w =>
  match findfile path w with
  | Some found =>
      match opener found with
      | None => read_text found w
      | Some c =>
          (let! bytes := read_text found in
           fun w' => (decode w' c bytes, w')) w
      end
  | None => (Raise FileNotFoundError, w)
  end.

End datasource.

(** [np.genfromtxt(fname, delimiter=',', dtype=dtype, skip_header=1)]: the
    lines of the file are all read before any row is converted. *)
Definition genfromtxt (fname : string) : M (ndarray Reading) :=
  let! content := datasource.open_read fname in
  lift (parse content).

End np.

(** ** The script *)

Definition load_data (filename : string) : M (np.ndarray Reading) :=
  let! data := np.genfromtxt filename in
  ret data.

Definition calculate_statistics (data : np.ndarray Reading) : gmap string string :=
  let avg_heart_rate := np.mean (np.map heart_rate data) in
  let avg_systolic_bp := np.mean (np.map blood_pressure_systolic data) in
  let avg_glucose := np.mean (np.map glucose_level data) in
  let stats : gmap string string :=
    <["avg_heart_rate" := pyfloat.format_1f avg_heart_rate]>
    (<["avg_systolic_bp" := pyfloat.format_1f avg_systolic_bp]>
    (<["avg_glucose" := pyfloat.format_1f avg_glucose]> ∅)) in
  stats.

Definition find_abnormal_readings (data : np.ndarray Reading) : gmap string Z :=
  let high_hr_count := np.sum_bool (np.gt (np.map heart_rate data) 90) in
  let high_bp_count := np.sum_bool (np.gt (np.map blood_pressure_systolic data) 130) in
  let high_glucose_count := np.sum_bool (np.gt (np.map glucose_level data) 110) in
  let abnormal : gmap string Z :=
    <["high_heart_rate" := high_hr_count]>
    (<["high_blood_pressure" := high_bp_count]>
    (<["high_glucose" := high_glucose_count]> ∅)) in
  abnormal.

(** [d[key]] *)
Definition getitem {V} (d : gmap string V) (key : string) : result V :=
  match d !! key with
  | Some v => Ok v
  | None => Raise (KeyError key)
  end.

Definition NL : string := String np.LF EmptyString.

Definition generate_report (stats : gmap string string) (abnormal : gmap string Z)
    (total_readings : Z) : result string :=
  rbind (getitem stats "avg_heart_rate") (fun avg_heart_rate =>
  rbind (getitem stats "avg_systolic_bp") (fun avg_systolic_bp =>
  rbind (getitem stats "avg_glucose") (fun avg_glucose =>
  rbind (getitem abnormal "high_heart_rate") (fun high_heart_rate =>
  rbind (getitem abnormal "high_blood_pressure") (fun high_blood_pressure =>
  rbind (getitem abnormal "high_glucose") (fun high_glucose =>
  let report :=
    "Health Sensor Data Analysis Report" ++ NL ++
    "==================================" ++ NL ++ NL ++
    "Dataset Summary:" ++ NL ++
    "- Total readings: " ++ pystr.of_int total_readings ++ NL ++ NL ++
    "Average Measurements:" ++ NL ++
    "- Heart Rate: " ++ avg_heart_rate ++ " bpm" ++ NL ++
    "- Systolic BP: " ++ avg_systolic_bp ++ " mmHg" ++ NL ++
    "- Glucose Level: " ++ avg_glucose ++ " mg/dL" ++ NL ++ NL ++
    "Abnormal Readings:" ++ NL ++
    "- High Heart Rate (>90): " ++ pystr.of_int high_heart_rate ++ " readings" ++ NL ++
    "- High Blood Pressure (>130): " ++ pystr.of_int high_blood_pressure ++ " readings" ++ NL ++
    "- High Glucose (>110): " ++ pystr.of_int high_glucose ++ " readings" ++ NL in
  Ok report)))))).

Definition save_report (report filename : string) : M unit :=
  let! _ := os.makedirs (os.path.dirname filename) in
  write_text filename report.

(** The line that [main] prints, as the bytes of its UTF-8 encoding: the
    literal of the source begins with the three characters U+00E2, U+0153
    and U+2026, seven bytes in the source file. *)
Definition success_message : string :=
  String "195" (String "162" (String "197" (String "147"
  (String "226" (String "128" (String "166"
    " Analysis complete! Report saved to output/analysis_report.txt")))))).

Definition main : M unit :=
  let! data := load_data "health_data.csv" in
  let stats := calculate_statistics data in
  let abnormal := find_abnormal_readings data in
  let! total_readings := lift (np.len data) in
  let! report := lift (generate_report stats abnormal total_readings) in
  let! _ := save_report report "output/analysis_report.txt" in
  print success_message.

(** ** Notions used to state the properties *)

(** The number of rows whose column [f] strictly exceeds [k]. *)
Definition count_exceeding (f : Reading -> Z) (k : Z) (rows : list Reading) : Z :=
  Z.of_nat (length (filter (fun r => k < f r) rows)).

(** The report of the specification, with its six values and the total. *)
Definition report_template (total : Z) (avg_heart_rate avg_systolic_bp avg_glucose : string)
    (high_heart_rate high_blood_pressure high_glucose : Z) : string :=
  "Health Sensor Data Analysis Report
==================================

Dataset Summary:
- Total readings: " ++ pystr.of_int total ++ "

Average Measurements:
- Heart Rate: " ++ avg_heart_rate ++ " bpm
- Systolic BP: " ++ avg_systolic_bp ++ " mmHg
- Glucose Level: " ++ avg_glucose ++ " mg/dL

Abnormal Readings:
- High Heart Rate (>90): " ++ pystr.of_int high_heart_rate ++ " readings
- High Blood Pressure (>130): " ++ pystr.of_int high_blood_pressure ++ " readings
- High Glucose (>110): " ++ pystr.of_int high_glucose ++ " readings
".

(** A row with the given heart rate, systolic pressure and glucose level,
    for the examples. *)
Definition reading (hr bp gl : Z) : Reading :=
  {| patient_id := "P001"; timestamp := "2024-01-15 08:00:00";
     heart_rate := hr; blood_pressure_systolic := bp;
     blood_pressure_diastolic := 80;
     temperature := pyfloat.to_f4 (pyfloat.of_int 37);
     glucose_level := gl; sensor_id := "S001" |}.

(** The decompressors of the example worlds, which hold no compressed
    stream: they are not asked to decode anything there, and fail. *)
Definition no_streams : codec -> string -> result string :=
  fun c _ => match c with
             | Gzip => Raise BadGzipFile
             | _ => Raise EOFError
             end.

(** A world for the examples: the working directory [/home] holds the
    input file with the given text. *)
Definition world_with_input (content : string) : world :=
  World (Dir true {[ "home" := Dir true {[ "health_data.csv" := File true true content ]} ]})
        ["home"] [] no_streams.

(** A path string without directory component: it has no slash. *)
Definition bare_filename (filename : string) : Prop :=
  pystr.mem "/" filename = false.



(** A world whose input file exists and cannot be read. *)
Definition world_unreadable_input : world :=
  World (Dir true {[ "home" := Dir true {[ "health_data.csv" := File false true "x" ]} ]})
        ["home"] [] no_streams.


(** A component name of a path: not empty, not [.] or [..], without slash. *)
Definition plain_name (c : string) : Prop :=
  c <> "" /\ c <> "." /\ c <> ".." /\ bare_filename c.

(** The node at a path, when there is one, is a directory that accepts
    new entries. *)
Definition dir_or_missing (rt : node) (p : list string) : Prop :=
  match fstree.lookup rt p with
  | None | Some (Dir true _) => True
  | _ => False
  end.

(** The node at a path, when there is one, is a regular file that accepts
    writes. *)
Definition file_or_missing (rt : node) (p : list string) : Prop :=
  match fstree.lookup rt p with
  | None | Some (File _ true _) => True
  | _ => False
  end.

Definition is_dir (o : option node) : Prop :=
  match o with
  | Some (Dir _ _) => True
  | _ => False
  end.

Definition is_writable_dir (o : option node) : Prop :=
  match o with
  | Some (Dir true _) => True
  | _ => False
  end.

(** The text of the regular file at a path. *)
Definition file_content (rt : node) (p : list string) : option string :=
  match fstree.lookup rt p with
  | Some (File _ _ c) => Some c
  | _ => None
  end.

(** The second world comes from the first by adding entries along the
    path [along]: the working directory and the output are the same, every
    path that is not a prefix of [along] names what it named, and the
    writable directories are still writable directories. *)
Definition grows_along (along : list string) (w w' : world) : Prop :=
  cwd w' = cwd w /\ stdout w' = stdout w
  /\ (forall q, ~ q `prefix_of` along ->
        fstree.lookup (root w') q = fstree.lookup (root w) q)
  /\ (forall q, is_writable_dir (fstree.lookup (root w) q) ->
        is_writable_dir (fstree.lookup (root w') q)).

(** A world whose working directory holds a regular file named [output]. *)
Definition world_output_is_file : world :=
  World (Dir true {[ "home" := Dir true {[ "output" := File true true "x" ]} ]})
        ["home"] [] no_streams.

(** The text of the regular file that a path string names. *)
Definition text_at (path : string) (w : world) : option string :=
  match fstree.stat w path with
  | Ok (File _ _ c) => Some c
  | _ => None
  end.

(** The report that [main] computes from the text of the input file: the
    statements of [main] between loading and saving. *)
Definition report_of (content : string) : result string :=
  rbind (np.parse content) (fun data =>
  let stats := calculate_statistics data in
  let abnormal := find_abnormal_readings data in
  rbind (np.len data) (fun total_readings =>
  generate_report stats abnormal total_readings)).

Definition input_path : string := "health_data.csv".
Definition output_path : string := "output/analysis_report.txt".

(** An input file with a header and two rows. *)
Definition sample_csv : string :=
  "patient_id,timestamp,heart_rate,blood_pressure_systolic,blood_pressure_diastolic,temperature,glucose_level,sensor_id
P001,2024-01-15 08:00:00,95,120,80,36.6,100,S001
P002,2024-01-15 08:05:00,80,140,85,37.1,120,S002
".

(** An input file with a header and one row. *)
Definition single_row_csv : string :=
  "patient_id,timestamp,heart_rate,blood_pressure_systolic,blood_pressure_diastolic,temperature,glucose_level,sensor_id
P001,2024-01-15 08:00:00,95,120,80,36.6,100,S001
".

(** A world that holds the input and an older report. *)
Definition world_with_old_report (content : string) : world :=
  World (Dir true
           {[ "srv" := Dir true
                {[ "health_data.csv" := File true true content;
                   "output" := Dir true
                     {[ "analysis_report.txt" := File true true "old" ]} ]} ]})
        ["srv"] ["earlier output"] no_streams.

(** A line of text: no line feed and no carriage return in it. *)
Definition no_line_break (s : string) : Prop :=
  pystr.mem np.LF s = false /\ pystr.mem np.CR s = false.

(** The element that a line of the file becomes. *)
Definition row_of_line (line : string) : result Reading :=
  rbind (np.convert_row (np.split_line line)) np.to_element.

(** A valid data row: a line with eight values that convert to an element
    of the array. *)
Definition valid_line (line : string) : Prop :=
  no_line_break line /\ length (np.split_line line) = 8%nat
  /\ exists r, row_of_line line = Ok r.

(** The text of a file with a header line and data lines, each line ended
    by a line feed. *)
Definition file_text (header : string) (lines : list string) : string :=
  header ++ NL ++ fold_right (fun l acc => l ++ NL ++ acc) "" lines.

(** The rows of values of a file do not all have the number of values of
    the first one. *)
Definition ragged (content : string) : bool :=
  match np.value_rows content with
  | [] => false
  | first :: _ =>
      negb (forallb (fun vs => Nat.eqb (length vs) (length first))
                    (np.value_rows content))
  end.




(** An input file whose first row has letters for the heart rate and whose
    second row has no temperature. *)
Definition malformed_csv : string :=
  "patient_id,timestamp,heart_rate,blood_pressure_systolic,blood_pressure_diastolic,temperature,glucose_level,sensor_id
P001,2024-01-15 08:00:00,abc,120,80,36.6,100,S001
P002,2024-01-15 08:05:00,80,140,85,,120,S002
".

(** An input file whose second row lacks a field. *)
Definition ragged_csv : string :=
  "patient_id,timestamp,heart_rate,blood_pressure_systolic,blood_pressure_diastolic,temperature,glucose_level,sensor_id
P001,2024-01-15 08:00:00,95,120,80,36.6,100,S001
P002,2024-01-15 08:05:00,80,140,85,37.1,120
".

(** A decimal numeral with exactly one digit after the point: an optional
    minus sign, one or more digits, the point, one digit. *)
Definition one_decimal (s : string) : Prop :=
  exists (neg : bool) (int_digits : string) (d : ascii),
    s = (if neg then "-" else "") ++ int_digits ++ "." ++ String d ""
    /\ int_digits <> ""
    /\ pystr.all pyfloat.is_digit int_digits = true
    /\ pyfloat.is_digit d = true.

(** A binary64 value that is a number: a zero or a finite non-zero value. *)
Definition is_finite (x : spec_float) : bool :=
  match x with
  | S754_zero _ | S754_finite _ _ _ => true
  | _ => false
  end.

(** The text is the average of a column with sum [s] over [n] rows, to one
    decimal: a numeral with one decimal, of sign that of [s], whose [t]
    tenths differ from [10 * |s| / n] by at most [1/2 + 10 / 2^21]. *)
Definition renders_mean (s n : Z) (text : string) : Prop :=
  one_decimal text
  /\ exists t : Z,
       text = pyfloat.fixed1 (s <? 0) t /\ 0 <= t
       /\ 2 ^ 22 * Z.abs (t * n - 10 * Z.abs s) <= (2 ^ 21 + 20) * n.

(** The sum of a column. *)
Definition column_sum (f : Reading -> Z) (rows : list Reading) : Z :=
  np.sum_list (List.map f rows).

(** The report of a table of rows: the template filled with the number of
    rows, the three averages to one decimal and the three counts. *)
Definition report_for (rows : list Reading) : string :=
  report_template (Z.of_nat (length rows))
    (pyfloat.format_1f (np.mean (np.Vector (List.map heart_rate rows))))
    (pyfloat.format_1f (np.mean (np.Vector (List.map blood_pressure_systolic rows))))
    (pyfloat.format_1f (np.mean (np.Vector (List.map glucose_level rows))))
    (count_exceeding heart_rate 90 rows)
    (count_exceeding blood_pressure_systolic 130 rows)
    (count_exceeding glucose_level 110 rows).

(** The element fits the dtype of [load_data]: the strings are within the
    widths of their fields and the integers within 32 bits. *)
Definition fits_dtype (r : Reading) : Prop :=
  (String.length (patient_id r) <= 10)%nat
  /\ (String.length (timestamp r) <= 20)%nat
  /\ (String.length (sensor_id r) <= 10)%nat
  /\ Reading_ok r.

(** A line of spaces, or of spaces and then a comment. *)
Definition blank_or_comment (line : string) : Prop :=
  exists spaces rest,
    pystr.all (fun c => pystr.is_char c " ") spaces = true
    /\ (line = spaces \/ line = spaces ++ "#" ++ rest).

(** The text of a file whose lines end with carriage return and line feed. *)
Definition file_text_crlf (header : string) (lines : list string) : string :=
  header ++ String np.CR NL
  ++ fold_right (fun l acc => l ++ String np.CR NL ++ acc) "" lines.


(** The characters of the file names that the properties of [load_data]
    are stated for: letters, digits, [_], [-] and the dot. *)
Definition safe_char (c : ascii) : bool :=
  let n := nat_of_ascii c in
  ((65 <=? n)%nat && (n <=? 90)%nat) || ((97 <=? n)%nat && (n <=? 122)%nat)
  || ((48 <=? n)%nat && (n <=? 57)%nat)
  || pystr.is_char c "_" || pystr.is_char c "-" || pystr.is_char c ".".

(** A path of such names, separated by slashes, that does not start with
    two slashes: [DataSource] sees no URL scheme and no host in it, and
    looks it up first as it is. *)
Definition local_path (path : string) : Prop :=
  pystr.all (fun c => safe_char c || pystr.is_char c "/") path = true
  /\ match path with
     | String "/" (String "/" _) => False
     | _ => True
     end.



(** The extension of the path is not one of a compressed stream. *)
Definition plain_extension (path : string) : Prop :=
  np.datasource.iszip path = false.


(* PROPERTIES *)

Local Open Scope list_scope.

(** * Properties *)

(** ** Counting *)

Section Counting.
Variable f : Reading -> Z.
Variable k : Z.

Lemma count_true_exceeding (rows : list Reading) :
  np.count_true (List.map (fun x => k <? x) (List.map f rows))
  = count_exceeding f k rows.
Proof.
  unfold count_exceeding.
  induction rows as [|r rows IH]; [reflexivity|].
  cbn [List.map np.count_true]. rewrite IH, filter_cons.
  destruct (Z.ltb_spec k (f r)); case_decide; try lia.
  cbn [length]. lia.
Qed.

Lemma sum_bool_exceeding (data : np.ndarray Reading) :
  np.sum_bool (np.gt (np.map f data) k) = count_exceeding f k (np.items data).
Proof.
  destruct data as [x|l]; unfold np.sum_bool, np.gt; cbn [np.map np.items].
  - apply (count_true_exceeding [x]).
  - apply count_true_exceeding.
Qed.

Lemma count_exceeding_bounds (rows : list Reading) :
  0 <= count_exceeding f k rows <= Z.of_nat (length rows).
Proof.
  unfold count_exceeding. pose proof (length_filter (fun r => k < f r) rows). lia.
Qed.

Lemma count_exceeding_skip (pre post : list Reading) (r : Reading) :
  f r <= k ->
  count_exceeding f k (pre ++ r :: post) = count_exceeding f k (pre ++ post).
Proof.
  intros Hr. unfold count_exceeding.
  rewrite !filter_app, filter_cons. case_decide; [lia|reflexivity].
Qed.
End Counting.

(** C1: [find_abnormal_readings] returns exactly three counts; each is the
    number of rows whose column strictly exceeds its threshold (90, 130,
    110), counted per column, each lies between 0 and the number of rows,
    and a row with heart rate exactly 90 adds nothing to the first count. *)
Theorem find_abnormal_readings_counts (data : np.ndarray Reading) :
  let rows := np.items data in
  let n := Z.of_nat (length rows) in
  let abnormal := find_abnormal_readings data in
  abnormal !! "high_heart_rate" = Some (count_exceeding heart_rate 90 rows)
  /\ abnormal !! "high_blood_pressure"
     = Some (count_exceeding blood_pressure_systolic 130 rows)
  /\ abnormal !! "high_glucose" = Some (count_exceeding glucose_level 110 rows)
  /\ dom abnormal = {[ "high_heart_rate"; "high_blood_pressure"; "high_glucose" ]}
  /\ 0 <= count_exceeding heart_rate 90 rows <= n
  /\ 0 <= count_exceeding blood_pressure_systolic 130 rows <= n
  /\ 0 <= count_exceeding glucose_level 110 rows <= n
  /\ (forall pre r post,
        heart_rate r = 90 ->
        find_abnormal_readings (np.Vector (pre ++ r :: post)) !! "high_heart_rate"
        = find_abnormal_readings (np.Vector (pre ++ post)) !! "high_heart_rate").
Proof.
  intros rows n abnormal. subst abnormal. unfold find_abnormal_readings.
  rewrite !sum_bool_exceeding. fold rows.
  repeat split; try apply count_exceeding_bounds; try reflexivity.
  intros pre r post Hr.
  rewrite !sum_bool_exceeding. cbn [np.items].
  rewrite !lookup_insert_eq. f_equal.
  apply count_exceeding_skip. lia.
Qed.

Lemma find_abnormal_readings_counts_witness :
  find_abnormal_readings
    (np.Vector ([reading 95 120 100] ++ reading 90 120 100 :: [reading 80 135 100]))
    !! "high_heart_rate"
  = find_abnormal_readings (np.Vector ([reading 95 120 100] ++ [reading 80 135 100]))
    !! "high_heart_rate".
Proof.
  apply (find_abnormal_readings_counts (np.Vector [])). reflexivity.
Defined.

(** ** The report *)

Lemma getitem_Some {V} (d : gmap string V) (key : string) (v : V) :
  d !! key = Some v -> getitem d key = Ok v.
Proof. intros H. unfold getitem. rewrite H. reflexivity. Qed.

Lemma generate_report_ok
    (stats : gmap string string) (abnormal : gmap string Z) (total : Z)
    (avg_hr avg_bp avg_gl : string) (high_hr high_bp high_gl : Z) :
  stats !! "avg_heart_rate" = Some avg_hr ->
  stats !! "avg_systolic_bp" = Some avg_bp ->
  stats !! "avg_glucose" = Some avg_gl ->
  abnormal !! "high_heart_rate" = Some high_hr ->
  abnormal !! "high_blood_pressure" = Some high_bp ->
  abnormal !! "high_glucose" = Some high_gl ->
  generate_report stats abnormal total
  = Ok (report_template total avg_hr avg_bp avg_gl high_hr high_bp high_gl).
Proof.
  intros H1 H2 H3 H4 H5 H6. unfold generate_report.
  rewrite (getitem_Some _ _ _ H1), (getitem_Some _ _ _ H2), (getitem_Some _ _ _ H3),
    (getitem_Some _ _ _ H4), (getitem_Some _ _ _ H5), (getitem_Some _ _ _ H6).
  reflexivity.
Qed.

(** C3: on a statistics mapping and a counts mapping that hold their three
    entries, [generate_report] returns the template of the specification
    with the total, the three averages and the three counts in their
    places; the function takes no world and changes none, and it raises
    nothing. *)
Theorem generate_report_template
    (stats : gmap string string) (abnormal : gmap string Z) (total : Z)
    (avg_hr avg_bp avg_gl : string) (high_hr high_bp high_gl : Z) :
  stats !! "avg_heart_rate" = Some avg_hr ->
  stats !! "avg_systolic_bp" = Some avg_bp ->
  stats !! "avg_glucose" = Some avg_gl ->
  abnormal !! "high_heart_rate" = Some high_hr ->
  abnormal !! "high_blood_pressure" = Some high_bp ->
  abnormal !! "high_glucose" = Some high_gl ->
  generate_report stats abnormal total
  = Ok (report_template total avg_hr avg_bp avg_gl high_hr high_bp high_gl).
Proof. apply generate_report_ok. Qed.

Lemma generate_report_template_witness :
  generate_report
    (<["avg_heart_rate" := "87.5"]> (<["avg_systolic_bp" := "130.0"]>
      (<["avg_glucose" := "110.0"]> ∅)))
    (<["high_heart_rate" := 1]> (<["high_blood_pressure" := 1]>
      (<["high_glucose" := 1]> ∅))) 2
  = Ok (report_template 2 "87.5" "130.0" "110.0" 1 1 1).
Proof.
  apply generate_report_template; reflexivity.
Defined.

(** ** Statistics of the empty table *)

(** C9: on a table without rows [calculate_statistics] raises nothing and
    returns the three averages as the text [nan]: the mean of an empty
    column is the quotient [0.0 / 0], a NaN, which the format with one
    decimal prints without a decimal digit. *)
Theorem calculate_statistics_empty :
  np.mean (np.map heart_rate (np.Vector [])) = S754_nan
  /\ pyfloat.format_1f S754_nan = "nan"
  /\ calculate_statistics (np.Vector [])
     = <["avg_heart_rate" := "nan"]>
         (<["avg_systolic_bp" := "nan"]> (<["avg_glucose" := "nan"]> ∅)).
Proof. repeat split; vm_compute; reflexivity. Qed.

(** ** Saving under a bare file name *)

Lemma rsplit_bare (p : string) :
  bare_filename p -> os.path.rsplit p = (EmptyString, p).
Proof.
  unfold bare_filename.
  induction p as [|c p IH]; [reflexivity|].
  cbn [pystr.mem os.path.rsplit]. intros H.
  apply orb_false_iff in H as [Hc Hp].
  rewrite (IH Hp). unfold os.path.is_slash. rewrite Hc. reflexivity.
Qed.

Lemma dirname_bare (p : string) :
  bare_filename p -> os.path.dirname p = EmptyString.
Proof.
  intros H. unfold os.path.dirname, os.path.split. rewrite (rsplit_bare p H).
  reflexivity.
Qed.

Lemma makedirs_empty_name (w : world) :
  os.makedirs "" w = (Raise FileNotFoundError, w).
Proof. reflexivity. Qed.

(** C10: for a destination without directory component [save_report] fails
    before it writes: the directory name computed from the path is empty,
    creating it raises FileNotFoundError, and the world is unchanged; so a
    call that succeeds had a destination with a slash. *)
Theorem save_report_bare_filename (report filename : string) (w : world) :
  (bare_filename filename ->
     os.path.dirname filename = ""
     /\ save_report report filename w = (Raise FileNotFoundError, w))
  /\ (forall w', save_report report filename w = (Ok tt, w') ->
        pystr.mem "/" filename = true).
Proof.
  assert (Hfail : bare_filename filename ->
            save_report report filename w = (Raise FileNotFoundError, w)).
  { intros H. unfold save_report, bind. rewrite (dirname_bare _ H).
    rewrite makedirs_empty_name. reflexivity. }
  split.
  - intros H. split; [apply dirname_bare, H | apply Hfail, H].
  - intros w' Hok. destruct (pystr.mem "/" filename) eqn:E; [reflexivity|].
    rewrite (Hfail E) in Hok. discriminate.
Qed.

Lemma save_report_bare_filename_witness :
  os.path.dirname "report.txt" = ""
  /\ save_report "text" "report.txt" (world_with_input "")
     = (Raise FileNotFoundError, world_with_input "").
Proof.
  apply (save_report_bare_filename "text" "report.txt" (world_with_input "")).
  reflexivity.
Defined.

(** ** Finding and opening the input *)

Lemma findfile_exists (path : string) (w : world) :
  os.path.exists_ path w = true -> np.datasource.findfile path w = Some path.
Proof.
  intros H. unfold np.datasource.findfile, np.datasource.possible_names.
  cbn [List.find]. rewrite H. reflexivity.
Qed.


Lemma opener_plain (path : string) :
  plain_extension path -> np.datasource.opener path = None.
Proof.
  unfold plain_extension, np.datasource.iszip, np.datasource.opener,
    np.datasource.zip_exts.
  intros H. apply bool_decide_eq_false in H.
  repeat case_bool_decide; cbn [orb]; try reflexivity; exfalso; apply H;
    match goal with E : _ = _ |- _ => rewrite E end; set_solver.
Qed.

Lemma read_text_world (path : string) (w w0 : world) (r : result string) :
  read_text path w = (r, w0) -> w0 = w.
Proof.
  unfold read_text. destruct (fstree.resolve w path) as [p|e].
  - destruct (fstree.lookup (root w) p) as [[[] wr t|wr ents]|];
      intros H; inversion H; reflexivity.
  - intros H; inversion H; reflexivity.
Qed.

Lemma read_text_exists (path content : string) (w : world) :
  read_text path w = (Ok content, w) -> os.path.exists_ path w = true.
Proof.
  unfold read_text, os.path.exists_, fstree.stat, rbind.
  destruct (fstree.resolve w path) as [p|e]; [|discriminate].
  destruct (fstree.lookup (root w) p) as [[[] wr t|wr ents]|]; congruence.
Qed.

(** Opening changes nothing. *)
Lemma open_read_world (path : string) (w w0 : world) (r : result string) :
  np.datasource.open_read path w = (r, w0) -> w0 = w.
Proof.
  unfold np.datasource.open_read.
  destruct (np.datasource.findfile path w) as [found|];
    [|intros H; inversion H; reflexivity].
  destruct (np.datasource.opener found) as [c|]; [|apply read_text_world].
  unfold bind. destruct (read_text found w) as [[bytes|e] w1] eqn:Er;
    apply read_text_world in Er; subst w1; intros H; inversion H; reflexivity.
Qed.

(** A file with a plain extension that can be read is read as it is. *)
Lemma open_read_plain (path content : string) (w : world) :
  plain_extension path -> read_text path w = (Ok content, w) ->
  np.datasource.open_read path w = (Ok content, w).
Proof.
  intros Hp Hr. unfold np.datasource.open_read.
  rewrite (findfile_exists _ _ (read_text_exists _ _ _ Hr)), (opener_plain _ Hp).
  exact Hr.
Qed.

Lemma load_data_read (path content : string) (w : world) :
  plain_extension path -> read_text path w = (Ok content, w) ->
  load_data path w = (np.parse content, w).
Proof.
  intros Hp Hr. unfold load_data, np.genfromtxt. repeat unfold bind, lift, ret.
  rewrite (open_read_plain _ _ _ Hp Hr). destruct (np.parse content); reflexivity.
Qed.

Lemma load_data_world (path : string) (w w' : world)
    (r : result (np.ndarray Reading)) :
  load_data path w = (r, w') -> w' = w.
Proof.
  unfold load_data, np.genfromtxt. repeat unfold bind, lift, ret.
  destruct (np.datasource.open_read path w) as [[content|e] w0] eqn:Er;
    apply open_read_world in Er; subst w0.
  - destruct (np.parse content); intros H; inversion H; reflexivity.
  - intros H; inversion H; reflexivity.
Qed.

Lemma input_plain_extension : plain_extension input_path.
Proof. reflexivity. Qed.

Lemma input_local_path : local_path input_path.
Proof. split; [reflexivity|exact I]. Qed.

Lemma text_at_exists (path content : string) (w : world) :
  text_at path w = Some content -> os.path.exists_ path w = true.
Proof.
  unfold text_at, os.path.exists_. destruct (fstree.stat w path); [reflexivity|discriminate].
Qed.

(** A path with a plain extension that exists is the file that is read. *)
Lemma load_data_found (path : string) (w : world) :
  plain_extension path -> os.path.exists_ path w = true ->
  load_data path w
  = match read_text path w with
    | (Ok content, w') => (np.parse content, w')
    | (Raise e, w') => (Raise e, w')
    end.
Proof.
  intros Hp He. unfold load_data, np.genfromtxt, np.datasource.open_read.
  repeat unfold bind, lift, ret.
  rewrite (findfile_exists _ _ He), (opener_plain _ Hp).
  destruct (read_text path w) as [[content|e] w']; [|reflexivity].
  destruct (np.parse content); reflexivity.
Qed.

(** ** A missing or unreadable input *)







Example load_data_unreadable_example :
  load_data "health_data.csv" world_unreadable_input
  = (Raise PermissionError, world_unreadable_input).
Proof. reflexivity. Qed.

(** ** The file tree *)

Lemma lookup_app (n : node) (p q : list string) :
  fstree.lookup n (p ++ q)
  = match fstree.lookup n p with
    | Some n' => fstree.lookup n' q
    | None => None
    end.
Proof.
  revert n. induction p as [|c p IH]; intros n; [reflexivity|].
  cbn [app fstree.lookup]. destruct n as [rd wr t|wr ents]; [reflexivity|].
  destruct (ents !! c); [apply IH|reflexivity].
Qed.

Lemma lookup_snoc_Some (n : node) (p : list string) (c : string) (x : node) :
  fstree.lookup n (p ++ [c]) = Some x -> is_dir (fstree.lookup n p).
Proof.
  rewrite lookup_app. destruct (fstree.lookup n p) as [[rd wr t|wr ents]|];
    cbn; [discriminate|trivial|discriminate].
Qed.

Lemma update_cons (wr : bool) (ents : gmap string node) (c : string)
    (p : list string) (new : node) :
  p <> [] ->
  fstree.update (Dir wr ents) (c :: p) new
  = match ents !! c with
    | Some n' => Dir wr (<[c := fstree.update n' p new]> ents)
    | None => Dir wr ents
    end.
Proof. destruct p; [contradiction|reflexivity]. Qed.

Lemma snoc_not_nil {A} (p : list A) (c : A) : (p ++ [c])%list <> [].
Proof. destruct p; discriminate. Qed.

(** Writing a node below an existing directory: the node is there. *)
Lemma lookup_update_same (n : node) (p : list string) (c : string) (new : node) :
  is_dir (fstree.lookup n p) ->
  fstree.lookup (fstree.update n (p ++ [c]) new) (p ++ [c]) = Some new.
Proof.
  revert n. induction p as [|d p IH]; intros n Hd.
  - cbn in Hd. destruct n as [rd wr t|wr ents]; [contradiction|].
    cbn. rewrite lookup_insert_eq. reflexivity.
  - cbn [app fstree.lookup] in *.
    destruct n as [rd wr t|wr ents]; [contradiction|].
    destruct (ents !! d) as [n'|] eqn:E; [|contradiction].
    rewrite update_cons, E by apply snoc_not_nil.
    cbn [fstree.lookup]. rewrite lookup_insert_eq. apply IH, Hd.
Qed.

(** Writing at a path leaves the paths beside it as they were. *)
Lemma lookup_update_other (n : node) (p q : list string) (new : node) :
  ~ q `prefix_of` p -> ~ p `prefix_of` q ->
  fstree.lookup (fstree.update n p new) q = fstree.lookup n q.
Proof.
  revert n q. induction p as [|c p IH]; intros n q Hqp Hpq.
  - exfalso. apply Hpq. apply prefix_nil.
  - destruct q as [|d q]; [exfalso; apply Hqp, prefix_nil|].
    cbn [fstree.update]. destruct n as [rd wr t|wr ents]; [reflexivity|].
    destruct (decide (c = d)) as [->|Hne].
    + assert (Hqp' : ~ q `prefix_of` p) by (intros H; apply Hqp, prefix_cons, H).
      assert (Hpq' : ~ p `prefix_of` q) by (intros H; apply Hpq, prefix_cons, H).
      destruct p as [|e p].
      { exfalso. apply Hpq', prefix_nil. }
      destruct (ents !! d) as [n'|] eqn:E; [|reflexivity].
      cbn [fstree.lookup]. rewrite lookup_insert_eq, E. apply IH; assumption.
    + destruct p as [|e p].
      * cbn [fstree.lookup]. rewrite lookup_insert_ne by assumption. reflexivity.
      * destruct (ents !! c) as [n'|] eqn:E; [|reflexivity].
        cbn [fstree.lookup]. rewrite lookup_insert_ne by assumption. reflexivity.
Qed.

(** An ancestor of the written path stays a directory with its permission. *)
Lemma lookup_update_ancestor (n : node) (p q : list string) (new : node)
    (wr : bool) (ents : gmap string node) :
  q <> [] ->
  fstree.lookup n p = Some (Dir wr ents) ->
  exists ents', fstree.lookup (fstree.update n (p ++ q) new) p = Some (Dir wr ents').
Proof.
  revert n. induction p as [|c p IH]; intros n Hq Hp.
  - cbn in Hp. injection Hp as ->. cbn [app].
    destruct q as [|d q]; [contradiction|]. cbn [fstree.update fstree.lookup].
    destruct q; [eauto|]. destruct (ents !! d); eauto.
  - cbn [app fstree.lookup] in *.
    destruct n as [rd wr' t|wr' ents0]; [discriminate|].
    destruct (ents0 !! c) as [n'|] eqn:E; [|discriminate].
    rewrite update_cons, E by (destruct p, q; try discriminate; contradiction).
    cbn [fstree.lookup]. rewrite lookup_insert_eq.
    apply IH; assumption.
Qed.

Lemma lookup_update_below (n : node) (p q : list string) (c : string) (new : node) :
  is_dir (fstree.lookup n p) ->
  fstree.lookup (fstree.update n (p ++ [c]) new) ((p ++ [c]) ++ q)
  = fstree.lookup new q.
Proof.
  intros Hd. rewrite lookup_app, lookup_update_same by assumption. reflexivity.
Qed.

Lemma lookup_prefix_is_dir (n : node) (p q : list string) (x : node) :
  q <> [] -> fstree.lookup n (p ++ q) = Some x -> is_dir (fstree.lookup n p).
Proof.
  intros Hq. rewrite lookup_app.
  destruct (fstree.lookup n p) as [[rd wr t|wr ents]|]; cbn; trivial;
    destruct q; try contradiction; discriminate.
Qed.

(** ** Path strings made of plain names *)

Lemma append_cons (c : ascii) (s t : string) : String c s +:+ t = String c (s +:+ t).
Proof. reflexivity. Qed.

Lemma append_nil_l (s : string) : "" +:+ s = s.
Proof. reflexivity. Qed.

Lemma append_nil_r (s : string) : s +:+ "" = s.
Proof.
  induction s as [|c s IH]; [reflexivity|]. rewrite append_cons, IH. reflexivity.
Qed.

Lemma append_assoc (s t u : string) : (s +:+ t) +:+ u = s +:+ t +:+ u.
Proof.
  induction s as [|c s IH]; [reflexivity|]. rewrite !append_cons, IH. reflexivity.
Qed.

Lemma split_bare (x : string) :
  bare_filename x -> pystr.split "/" x = [x].
Proof.
  unfold bare_filename. induction x as [|c x IH]; [reflexivity|].
  cbn [pystr.mem pystr.split]. intros H. apply orb_false_iff in H as [Hc Hx].
  rewrite Hc, (IH Hx). reflexivity.
Qed.

Lemma split_app_bare (x s : string) :
  bare_filename x -> pystr.split "/" (x +:+ "/" +:+ s) = x :: pystr.split "/" s.
Proof.
  unfold bare_filename. induction x as [|c x IH]; [reflexivity|].
  cbn [pystr.mem]. intros H. apply orb_false_iff in H as [Hc Hx].
  rewrite append_cons. cbn [pystr.split]. rewrite Hc, (IH Hx). reflexivity.
Qed.

Lemma join_cons (x y : string) (l : list string) :
  pystr.join "/" (x :: y :: l) = x +:+ "/" +:+ pystr.join "/" (y :: l).
Proof. reflexivity. Qed.

Lemma split_join (l : list string) :
  l <> [] -> Forall bare_filename l -> pystr.split "/" (pystr.join "/" l) = l.
Proof.
  intros Hne Hl. induction Hl as [|x l Hx Hl IH]; [contradiction|].
  destruct l as [|y l].
  - apply split_bare, Hx.
  - rewrite join_cons, split_app_bare by assumption. f_equal. apply IH. discriminate.
Qed.

Lemma join_snoc (l : list string) (d : string) :
  l <> [] -> pystr.join "/" (l ++ [d]) = pystr.join "/" l +:+ "/" +:+ d.
Proof.
  induction l as [|x l IH]; [contradiction|]. intros _.
  destruct l as [|y l]; [reflexivity|].
  change ((x :: y :: l) ++ [d])%list with (x :: (y :: l) ++ [d])%list.
  cbn [app]. rewrite !join_cons. cbn [app] in IH. rewrite IH by discriminate.
  rewrite !append_assoc. reflexivity.
Qed.

Lemma rsplit_app_bare (a d : string) :
  bare_filename d -> os.path.rsplit (a +:+ "/" +:+ d) = (a +:+ "/", d).
Proof.
  intros Hd. induction a as [|c a IH].
  - rewrite append_nil_l, append_cons, append_nil_l. cbn [os.path.rsplit].
    rewrite (rsplit_bare d Hd). reflexivity.
  - rewrite !(append_cons c a). cbn [os.path.rsplit]. rewrite IH.
    destruct (a +:+ "/") eqn:E; [destruct a; discriminate|]. reflexivity.
Qed.

Lemma rstrip_app (f : ascii -> bool) (a b : string) :
  pystr.rstrip f b <> "" -> pystr.rstrip f (a +:+ b) = a +:+ pystr.rstrip f b.
Proof.
  intros Hb. induction a as [|c a IH]; [reflexivity|].
  rewrite !(append_cons c a). cbn [pystr.rstrip]. rewrite IH.
  destruct (a +:+ pystr.rstrip f b) eqn:E; [|reflexivity].
  destruct a; [rewrite append_nil_l in E; contradiction|discriminate].
Qed.

Lemma rstrip_bare_slash (x : string) :
  x <> "" -> bare_filename x -> pystr.rstrip os.path.is_slash (x +:+ "/") = x.
Proof.
  unfold bare_filename. induction x as [|c x IH]; [contradiction|].
  intros _ H. cbn [pystr.mem] in H. apply orb_false_iff in H as [Hc Hx].
  rewrite (append_cons c x). cbn [pystr.rstrip].
  destruct x as [|c' x'].
  - cbn. unfold os.path.is_slash. rewrite Hc. reflexivity.
  - rewrite IH by (discriminate || assumption). reflexivity.
Qed.

Lemma plain_name_bare (c : string) : plain_name c -> bare_filename c.
Proof. intros (_ & _ & _ & H). exact H. Qed.

Lemma plain_names_bare (l : list string) :
  Forall plain_name l -> Forall bare_filename l.
Proof. intros H. eapply Forall_impl; [exact H|apply plain_name_bare]. Qed.

Lemma plain_name_head (x : string) :
  plain_name x -> exists c r, x = String c r /\ os.path.is_slash c = false.
Proof.
  intros (Hne & _ & _ & Hb). destruct x as [|c r]; [contradiction|].
  exists c, r. split; [reflexivity|].
  unfold bare_filename in Hb. cbn [pystr.mem] in Hb.
  apply orb_false_iff in Hb as [Hc _]. exact Hc.
Qed.

Lemma join_head (l : list string) :
  l <> [] -> Forall plain_name l ->
  exists c r, pystr.join "/" l = String c r /\ os.path.is_slash c = false.
Proof.
  intros Hne Hl. destruct Hl as [|x l Hx Hl]; [contradiction|].
  destruct (plain_name_head x Hx) as (c & r & -> & Hc).
  destruct l as [|y l].
  - exists c, r. split; [reflexivity|exact Hc].
  - rewrite join_cons, (append_cons c r). eauto.
Qed.

Lemma join_not_empty (l : list string) :
  l <> [] -> Forall plain_name l -> pystr.join "/" l <> "".
Proof.
  intros Hne Hl. destruct (join_head l Hne Hl) as (c & r & -> & _). discriminate.
Qed.

Lemma join_relative (l : list string) :
  l <> [] -> Forall plain_name l -> fstree.is_absolute (pystr.join "/" l) = false.
Proof.
  intros Hne Hl. destruct (join_head l Hne Hl) as (c & r & -> & Hc).
  unfold os.path.is_slash, pystr.is_char in Hc. cbn.
  destruct c as [[] [] [] [] [] [] [] []]; try reflexivity. discriminate.
Qed.

Lemma rstrip_join_slash (l : list string) :
  l <> [] -> Forall plain_name l ->
  pystr.rstrip os.path.is_slash (pystr.join "/" l +:+ "/") = pystr.join "/" l.
Proof.
  intros Hne Hl. induction Hl as [|x l Hx Hl IH]; [contradiction|].
  destruct l as [|y l].
  - apply rstrip_bare_slash; [apply Hx|apply plain_name_bare, Hx].
  - rewrite join_cons, !append_assoc.
    assert (IH' := IH ltac:(discriminate)).
    assert (Hj : pystr.join "/" (y :: l) <> "")
      by (apply join_not_empty; [discriminate|assumption]).
    assert (E : pystr.rstrip os.path.is_slash ("/" +:+ pystr.join "/" (y :: l) +:+ "/")
                = "/" +:+ pystr.join "/" (y :: l)).
    { rewrite rstrip_app; rewrite IH'; [reflexivity|assumption]. }
    rewrite rstrip_app; rewrite E; [reflexivity|discriminate].
Qed.

Lemma all_slash_join (l : list string) (s : string) :
  l <> [] -> Forall plain_name l ->
  pystr.all os.path.is_slash (pystr.join "/" l +:+ s) = false.
Proof.
  intros Hne Hl. destruct (join_head l Hne Hl) as (c & r & -> & Hc).
  rewrite append_cons. cbn [pystr.all]. rewrite Hc. reflexivity.
Qed.

(** [os.path.split] of a path of plain names cuts the last name off. *)
Lemma path_split_join (ds : list string) (d : string) :
  ds <> [] -> Forall plain_name ds -> plain_name d ->
  os.path.split (pystr.join "/" (ds ++ [d])) = (pystr.join "/" ds, d).
Proof.
  intros Hne Hds Hd. unfold os.path.split.
  rewrite join_snoc, rsplit_app_bare by (assumption || apply plain_name_bare, Hd).
  rewrite all_slash_join, rstrip_join_slash by assumption.
  rewrite bool_decide_eq_false_2; [reflexivity|].
  destruct (join_head ds Hne Hds) as (c & r & -> & _). discriminate.
Qed.

Lemma path_split_bare (d : string) :
  bare_filename d -> os.path.split d = ("", d).
Proof. intros Hd. unfold os.path.split. rewrite rsplit_bare by assumption. reflexivity. Qed.

Lemma dirname_join (ds : list string) (d : string) :
  ds <> [] -> Forall plain_name ds -> plain_name d ->
  os.path.dirname (pystr.join "/" (ds ++ [d])) = pystr.join "/" ds.
Proof.
  intros. unfold os.path.dirname. rewrite path_split_join by assumption. reflexivity.
Qed.

(** ** Resolution of paths of plain names *)

Lemma is_dir_prefix (n : node) (p q : list string) :
  is_dir (fstree.lookup n (p ++ q)) -> is_dir (fstree.lookup n p).
Proof.
  destruct q as [|c q]; [rewrite app_nil_r; trivial|].
  destruct (fstree.lookup n (p ++ c :: q)) as [x|] eqn:E; [|contradiction].
  intros _. apply (lookup_prefix_is_dir n p (c :: q) x); [discriminate|exact E].
Qed.

Lemma walk_step_plain (rt : node) (cur rest : list string) (c : string) :
  plain_name c -> is_dir (fstree.lookup rt cur) ->
  fstree.walk rt cur (c :: rest) = fstree.walk rt (cur ++ [c]) rest.
Proof.
  intros (H1 & H2 & H3 & _) Hd. cbn [fstree.walk].
  destruct (fstree.lookup rt cur) as [[rd wr t|wr ents]|]; try contradiction.
  rewrite !bool_decide_eq_false_2 by assumption. reflexivity.
Qed.

Lemma walk_step_not_dir (rt : node) (cur rest : list string) (c : string) :
  ~ is_dir (fstree.lookup rt cur) ->
  exists e, fstree.walk rt cur (c :: rest) = Raise e.
Proof.
  intros Hd. cbn [fstree.walk].
  destruct (fstree.lookup rt cur) as [[rd wr t|wr ents]|]; eauto.
  exfalso. apply Hd. exact I.
Qed.

Lemma walk_plain (rt : node) (cur ds : list string) (d : string) :
  Forall plain_name (ds ++ [d]) -> is_dir (fstree.lookup rt (cur ++ ds)) ->
  fstree.walk rt cur (ds ++ [d]) = Ok (cur ++ ds ++ [d])%list.
Proof.
  revert cur. induction ds as [|x ds IH]; intros cur Hp Hd.
  - rewrite app_nil_r in Hd. cbn [app]. inversion Hp; subst.
    rewrite walk_step_plain by assumption. reflexivity.
  - cbn [app] in *. inversion Hp; subst.
    rewrite walk_step_plain by (assumption || eapply is_dir_prefix, Hd).
    rewrite IH; [|assumption|rewrite <- app_assoc; exact Hd].
    rewrite <- app_assoc. reflexivity.
Qed.

Lemma walk_plain_fail (rt : node) (cur ds : list string) (d : string) :
  Forall plain_name (ds ++ [d]) -> ~ is_dir (fstree.lookup rt (cur ++ ds)) ->
  exists e, fstree.walk rt cur (ds ++ [d]) = Raise e.
Proof.
  revert cur. induction ds as [|x ds IH]; intros cur Hp Hd.
  - rewrite app_nil_r in Hd. apply walk_step_not_dir, Hd.
  - cbn [app] in *. inversion Hp; subst.
    destruct (fstree.lookup rt cur) as [[rd wr t|wr ents]|] eqn:E.
    + apply walk_step_not_dir. rewrite E. auto.
    + rewrite walk_step_plain by (rewrite ?E; assumption || exact I).
      apply IH; [assumption|]. rewrite <- app_assoc. exact Hd.
    + apply walk_step_not_dir. rewrite E. auto.
Qed.

Section RelativePath.
Variable w : world.
Variable ds : list string.
Variable d : string.
Hypothesis plain : Forall plain_name (ds ++ [d]).

Lemma snoc_plain : (ds ++ [d])%list <> [] /\ Forall plain_name (ds ++ [d]).
Proof. split; [apply snoc_not_nil|exact plain]. Qed.

Lemma resolve_join :
  is_dir (fstree.lookup (root w) (cwd w ++ ds)) ->
  fstree.resolve w (pystr.join "/" (ds ++ [d])) = Ok (cwd w ++ ds ++ [d])%list.
Proof.
  intros Hd. destruct snoc_plain as [Hne Hp]. unfold fstree.resolve.
  rewrite bool_decide_eq_false_2 by (apply join_not_empty; assumption).
  rewrite join_relative by assumption.
  rewrite split_join by (assumption || apply plain_names_bare, Hp).
  apply walk_plain; assumption.
Qed.

Lemma resolve_join_fail :
  ~ is_dir (fstree.lookup (root w) (cwd w ++ ds)) ->
  exists e, fstree.resolve w (pystr.join "/" (ds ++ [d])) = Raise e.
Proof.
  intros Hd. destruct snoc_plain as [Hne Hp]. unfold fstree.resolve.
  rewrite bool_decide_eq_false_2 by (apply join_not_empty; assumption).
  rewrite join_relative by assumption.
  rewrite split_join by (assumption || apply plain_names_bare, Hp).
  apply walk_plain_fail; assumption.
Qed.

(** [os.stat] of a relative path of plain names finds the node at that
    path below the working directory, or fails. *)
Lemma stat_join_Some (n : node) :
  fstree.lookup (root w) (cwd w ++ ds ++ [d]) = Some n ->
  fstree.stat w (pystr.join "/" (ds ++ [d])) = Ok n.
Proof.
  intros Hn. unfold fstree.stat. rewrite resolve_join.
  - cbn [rbind]. rewrite Hn. reflexivity.
  - rewrite app_assoc in Hn. eapply lookup_snoc_Some, Hn.
Qed.

Lemma stat_join_None :
  fstree.lookup (root w) (cwd w ++ ds ++ [d]) = None ->
  exists e, fstree.stat w (pystr.join "/" (ds ++ [d])) = Raise e.
Proof.
  intros Hn. unfold fstree.stat.
  destruct (fstree.lookup (root w) (cwd w ++ ds)) as [[rd wr t|wr ents]|] eqn:E.
  - destruct resolve_join_fail as [e ->]; [rewrite E; auto|cbn; eauto].
  - rewrite resolve_join by (rewrite E; exact I). cbn [rbind]. rewrite Hn. eauto.
  - destruct resolve_join_fail as [e ->]; [rewrite E; auto|cbn; eauto].
Qed.

Lemma exists_join_true (n : node) :
  fstree.lookup (root w) (cwd w ++ ds ++ [d]) = Some n ->
  os.path.exists_ (pystr.join "/" (ds ++ [d])) w = true.
Proof.
  intros Hn. unfold os.path.exists_. rewrite (stat_join_Some n Hn). reflexivity.
Qed.

Lemma exists_join_false :
  fstree.lookup (root w) (cwd w ++ ds ++ [d]) = None ->
  os.path.exists_ (pystr.join "/" (ds ++ [d])) w = false.
Proof.
  intros Hn. unfold os.path.exists_. destruct (stat_join_None Hn) as [e ->].
  reflexivity.
Qed.

Lemma mkdir_join_new (ents : gmap string node) :
  fstree.lookup (root w) (cwd w ++ ds) = Some (Dir true ents) ->
  fstree.lookup (root w) (cwd w ++ ds ++ [d]) = None ->
  os.mkdir (pystr.join "/" (ds ++ [d])) w
  = (Ok tt, fstree.set_root w
              (fstree.update (root w) (cwd w ++ ds ++ [d]) (Dir true ∅))).
Proof.
  intros Hp Hn. unfold os.mkdir.
  rewrite resolve_join by (rewrite Hp; exact I). rewrite Hn.
  unfold fstree.parent. rewrite app_assoc, removelast_last, Hp. reflexivity.
Qed.

Lemma mkdir_join_exists (n : node) :
  fstree.lookup (root w) (cwd w ++ ds ++ [d]) = Some n ->
  os.mkdir (pystr.join "/" (ds ++ [d])) w = (Raise FileExistsError, w).
Proof.
  intros Hn. unfold os.mkdir. rewrite resolve_join.
  - rewrite Hn. reflexivity.
  - rewrite app_assoc in Hn. eapply lookup_snoc_Some, Hn.
Qed.

Lemma write_text_join_new (text : string) (ents : gmap string node) :
  fstree.lookup (root w) (cwd w ++ ds) = Some (Dir true ents) ->
  fstree.lookup (root w) (cwd w ++ ds ++ [d]) = None ->
  write_text (pystr.join "/" (ds ++ [d])) text w
  = (Ok tt, fstree.set_root w
              (fstree.update (root w) (cwd w ++ ds ++ [d]) (File true true text))).
Proof.
  intros Hp Hn. unfold write_text.
  rewrite resolve_join by (rewrite Hp; exact I). rewrite Hn.
  unfold fstree.parent. rewrite app_assoc, removelast_last, Hp. reflexivity.
Qed.

Lemma write_text_join_over (text old : string) (rd : bool) :
  fstree.lookup (root w) (cwd w ++ ds ++ [d]) = Some (File rd true old) ->
  write_text (pystr.join "/" (ds ++ [d])) text w
  = (Ok tt, fstree.set_root w
              (fstree.update (root w) (cwd w ++ ds ++ [d]) (File rd true text))).
Proof.
  intros Hn. unfold write_text. rewrite resolve_join.
  - rewrite Hn. reflexivity.
  - rewrite app_assoc in Hn. eapply lookup_snoc_Some, Hn.
Qed.

End RelativePath.

(** ** Creating the directories of a path *)

Lemma grows_along_refl (along : list string) (w : world) : grows_along along w w.
Proof. repeat split; auto. Qed.

Lemma grows_along_trans (along : list string) (w1 w2 w3 : world) :
  grows_along along w1 w2 -> grows_along along w2 w3 -> grows_along along w1 w3.
Proof.
  intros (Hc1 & Ho1 & Hf1 & Hd1) (Hc2 & Ho2 & Hf2 & Hd2). repeat split.
  - congruence.
  - congruence.
  - intros q Hq. rewrite Hf2, Hf1 by assumption. reflexivity.
  - intros q Hq. apply Hd2, Hd1, Hq.
Qed.

Lemma grows_along_longer (along more : list string) (w w' : world) :
  grows_along along w w' -> grows_along (along ++ more) w w'.
Proof.
  intros (Hc & Ho & Hf & Hd). repeat split; try assumption.
  intros q Hq. apply Hf. intros Hp. apply Hq, prefix_app_r, Hp.
Qed.

Lemma lookup_empty_dir (wr : bool) (c : string) (q : list string) :
  fstree.lookup (Dir wr ∅) (c :: q) = None.
Proof. cbn. rewrite lookup_empty. reflexivity. Qed.

(** Putting a new node where there was none, below a directory. *)
Lemma update_new_grows (w : world) (p : list string) (c : string) (new : node) :
  is_dir (fstree.lookup (root w) p) ->
  fstree.lookup (root w) (p ++ [c]) = None ->
  (forall q, q <> [] -> fstree.lookup new q = None) ->
  grows_along (p ++ [c]) w (fstree.set_root w (fstree.update (root w) (p ++ [c]) new)).
Proof.
  intros Hd Hn Hnew.
  assert (Hframe : forall q, ~ q `prefix_of` (p ++ [c]) ->
            fstree.lookup (fstree.update (root w) (p ++ [c]) new) q
            = fstree.lookup (root w) q).
  { intros q Hq. destruct (decide ((p ++ [c]) `prefix_of` q)) as [[q' ->]|Hpq].
    - rewrite lookup_update_below by assumption.
      rewrite (lookup_app (root w) (p ++ [c]) q'), Hn.
      apply Hnew. intros ->. apply Hq. rewrite app_nil_r. reflexivity.
    - apply lookup_update_other; assumption. }
  repeat split; try reflexivity; cbn [root fstree.set_root].
  - exact Hframe.
  - intros q Hq. destruct (decide (q `prefix_of` (p ++ [c]))) as [[q' E]|Hqp].
    + destruct q' as [|x q'].
      { rewrite app_nil_r in E. subst q. rewrite Hn in Hq. contradiction. }
      rewrite E.
      destruct (fstree.lookup (root w) q) as [[rd wr t|[] ents]|] eqn:El;
        try contradiction.
      destruct (lookup_update_ancestor (root w) q (x :: q') new true ents
                  ltac:(discriminate) El) as [ents' ->].
      exact I.
    + rewrite Hframe by assumption. exact Hq.
Qed.

Lemma mkdir_exist_ok_plain (w : world) (ds : list string) (d : string) :
  Forall plain_name (ds ++ [d]) ->
  is_writable_dir (fstree.lookup (root w) (cwd w ++ ds)) ->
  dir_or_missing (root w) (cwd w ++ ds ++ [d]) ->
  exists w',
    os.mkdir_exist_ok (pystr.join "/" (ds ++ [d])) w = (Ok tt, w')
    /\ grows_along (cwd w ++ ds ++ [d]) w w'
    /\ is_writable_dir (fstree.lookup (root w') (cwd w ++ ds ++ [d])).
Proof.
  intros Hp Hpar Hdm. unfold os.mkdir_exist_ok, dir_or_missing in *.
  destruct (fstree.lookup (root w) (cwd w ++ ds)) as [[rd wr t|[] ents]|] eqn:Epar;
    try contradiction.
  destruct (fstree.lookup (root w) (cwd w ++ ds ++ [d])) as [[rd wr t|[] ents']|] eqn:E;
    try contradiction.
  - rewrite (mkdir_join_exists w ds d Hp _ E).
    unfold os.path.isdir. rewrite (stat_join_Some w ds d Hp _ E).
    exists w. split; [reflexivity|]. split; [apply grows_along_refl|].
    rewrite E. exact I.
  - rewrite (mkdir_join_new w ds d Hp ents Epar E).
    eexists. split; [reflexivity|]. rewrite !app_assoc in *. split.
    + apply update_new_grows; [rewrite Epar; exact I|exact E|].
      intros [|c q] Hq; [contradiction|apply lookup_empty_dir].
    + cbn [root fstree.set_root]. rewrite lookup_update_same by (rewrite Epar; exact I).
      exact I.
Qed.

Lemma prefix_snoc_inv {A} (pre l : list A) (x : A) :
  pre `prefix_of` (l ++ [x]) -> pre = l ++ [x] \/ pre `prefix_of` l.
Proof.
  intros [post E]. destruct post as [|y post _] using rev_ind.
  - left. rewrite app_nil_r in E. congruence.
  - right. rewrite app_assoc in E. apply app_inj_tail in E as [E _].
    exists post. exact E.
Qed.

Lemma plain_name_not_empty (d : string) : plain_name d -> bool_decide (d = "") = false.
Proof. intros (H & _). apply bool_decide_eq_false_2, H. Qed.

Lemma plain_name_not_dot (d : string) : plain_name d -> bool_decide (d = ".") = false.
Proof. intros (_ & H & _). apply bool_decide_eq_false_2, H. Qed.

(** [os.makedirs] on a relative path of plain names, in a working
    directory that accepts entries, when every prefix of the path is
    missing or a directory that accepts entries: it succeeds, and afterwards
    every prefix is a directory. *)
Lemma makedirs_rec_plain (ds : list string) :
  ds <> [] -> Forall plain_name ds ->
  forall (fuel : nat) (w : world),
    (length ds <= fuel)%nat ->
    is_writable_dir (fstree.lookup (root w) (cwd w)) ->
    (forall pre, pre <> [] -> pre `prefix_of` ds ->
       dir_or_missing (root w) (cwd w ++ pre)) ->
    exists w',
      os.makedirs_rec fuel (pystr.join "/" ds) w = (Ok tt, w')
      /\ grows_along (cwd w ++ ds) w w'
      /\ (forall pre, pre `prefix_of` ds ->
            is_writable_dir (fstree.lookup (root w') (cwd w ++ pre))).
Proof.
  induction ds as [|d ds IH] using rev_ind; [contradiction|].
  intros _ Hp fuel w Hfuel Hcwd Hchain.
  assert (Hd : plain_name d) by (apply Forall_app in Hp as [_ H]; inversion H; assumption).
  assert (Hds : Forall plain_name ds) by (apply Forall_app in Hp as [H _]; exact H).
  destruct fuel as [|fuel]; [rewrite length_app in Hfuel; cbn in Hfuel; lia|].
  assert (Hfull : dir_or_missing (root w) (cwd w ++ ds ++ [d])).
  { apply Hchain; [apply snoc_not_nil|reflexivity]. }
  cbn [os.makedirs_rec].
  destruct (decide (ds = [])) as [->|Hne].
  - (* a single name: no head *)
    cbn [app pystr.join].
    rewrite path_split_bare by apply plain_name_bare, Hd. cbv beta iota zeta.
    rewrite (plain_name_not_empty d Hd). cbv beta iota zeta.
    rewrite (bool_decide_eq_true_2 ("" = "") eq_refl). cbn [negb andb].
    destruct (mkdir_exist_ok_plain w [] d Hp) as (w' & Hrun & Hg & Hw).
    { rewrite app_nil_r. exact Hcwd. }
    { exact Hfull. }
    cbn [app pystr.join] in Hrun. exists w'. split; [exact Hrun|]. split; [exact Hg|].
    intros pre Hpre. apply (prefix_snoc_inv pre [] d) in Hpre as [->|Hpre]; [exact Hw|].
    apply prefix_nil_inv in Hpre as ->. rewrite app_nil_r.
    destruct Hg as (_ & _ & _ & Hkeep). apply Hkeep, Hcwd.
  - rewrite path_split_join by assumption. cbv beta iota zeta.
    rewrite (plain_name_not_empty d Hd). cbv beta iota zeta.
    rewrite (plain_name_not_empty d Hd), (plain_name_not_dot d Hd).
    rewrite (bool_decide_eq_false_2 _ (join_not_empty ds Hne Hds)).
    cbn [negb andb].
    destruct (exists_last Hne) as (ds0 & d0 & Eds).
    assert (Hp0 : Forall plain_name (ds0 ++ [d0])) by (rewrite <- Eds; exact Hds).
    destruct (fstree.lookup (root w) (cwd w ++ ds)) as [n|] eqn:Epar.
    + (* the head exists *)
      assert (Hex : os.path.exists_ (pystr.join "/" ds) w = true).
      { rewrite Eds. apply (exists_join_true w ds0 d0 Hp0 n). rewrite <- Eds. exact Epar. }
      rewrite Hex. cbn [negb].
      assert (Hparw : is_writable_dir (fstree.lookup (root w) (cwd w ++ ds))).
      { specialize (Hchain ds Hne (prefix_app_r ds ds [d] (reflexivity ds))).
        unfold dir_or_missing in Hchain. rewrite Epar in *.
        destruct n as [rd wr t|[] ents]; try contradiction. exact I. }
      destruct (mkdir_exist_ok_plain w ds d Hp Hparw Hfull) as (w' & Hrun & Hg & Hw).
      exists w'. split; [exact Hrun|]. split; [rewrite app_assoc in *; exact Hg|].
      intros pre Hpre. apply prefix_snoc_inv in Hpre as [->|Hpre]; [exact Hw|].
      destruct Hg as (_ & _ & _ & Hkeep). apply Hkeep.
      destruct pre as [|x pre]; [rewrite app_nil_r; exact Hcwd|].
      specialize (Hchain (x :: pre) ltac:(discriminate) (prefix_app_r _ _ [d] Hpre)).
      destruct Hpre as [post ->]. rewrite app_assoc in Hparw.
      assert (Hdir : is_dir (fstree.lookup (root w) (cwd w ++ x :: pre))).
      { apply (is_dir_prefix _ _ post).
        destruct (fstree.lookup (root w) ((cwd w ++ x :: pre) ++ post))
          as [[rd wr t|wr ents]|]; try contradiction. exact I. }
      unfold dir_or_missing in Hchain.
      destruct (fstree.lookup (root w) (cwd w ++ x :: pre)) as [[rd wr t|[] ents]|];
        try contradiction. exact I.
    + (* the head is missing: it is created first *)
      assert (Hex : os.path.exists_ (pystr.join "/" ds) w = false).
      { rewrite Eds. apply (exists_join_false w ds0 d0 Hp0). rewrite <- Eds. exact Epar. }
      rewrite Hex. cbn [negb].
      destruct (IH Hne Hds fuel w) as (w1 & Hrun1 & Hg1 & Hw1).
      { rewrite length_app in Hfuel. cbn in Hfuel. lia. }
      { exact Hcwd. }
      { intros pre Hpre1 Hpre2. apply Hchain; [exact Hpre1|apply prefix_app_r, Hpre2]. }
      rewrite Hrun1.
      pose proof Hg1 as (Hc1 & Ho1 & Hf1 & Hk1).
      assert (Hparw : is_writable_dir (fstree.lookup (root w1) (cwd w1 ++ ds))).
      { rewrite Hc1. apply Hw1. reflexivity. }
      assert (Hfull1 : dir_or_missing (root w1) (cwd w1 ++ ds ++ [d])).
      { unfold dir_or_missing. rewrite Hc1, Hf1.
        - exact Hfull.
        - rewrite (app_assoc (cwd w) ds [d]). apply prefix_snoc_not. }
      destruct (mkdir_exist_ok_plain w1 ds d Hp Hparw Hfull1) as (w' & Hrun & Hg & Hw).
      exists w'. split; [exact Hrun|]. rewrite Hc1 in *. split.
      * apply (grows_along_trans _ w w1 w'); [|exact Hg].
        rewrite app_assoc. apply grows_along_longer, Hg1.
      * intros pre Hpre. apply prefix_snoc_inv in Hpre as [->|Hpre]; [exact Hw|].
        destruct Hg as (_ & _ & _ & Hkeep). apply Hkeep, Hw1, Hpre.
Qed.

(** ** Saving the report *)

Lemma length_append (a b : string) :
  String.length (a +:+ b) = (String.length a + String.length b)%nat.
Proof.
  induction a as [|c a IH]; [reflexivity|]. rewrite append_cons. cbn. rewrite IH.
  reflexivity.
Qed.

Lemma length_join (l : list string) :
  Forall plain_name l -> (length l <= String.length (pystr.join "/" l))%nat.
Proof.
  induction 1 as [|x l Hx Hl IH]; [cbn; lia|].
  destruct (plain_name_head x Hx) as (c & r & -> & _).
  destruct l as [|y l]; [cbn; lia|].
  rewrite join_cons, !length_append. cbn [length String.length] in *. lia.
Qed.

(** C7, amended: for a relative destination [dir1/.../dirk/name] of plain
    names with at least one directory, in a working directory that accepts
    entries, where every [dir1/.../dirj] is missing or a directory that
    accepts entries and the destination is missing or a regular file that
    accepts writes, [save_report] first creates the missing directories
    and then writes the text: every [dir1/.../dirj] is a directory, the
    destination holds exactly the report, whatever it held before, and the
    paths beside the destination are untouched. *)
Theorem save_report_creates_and_writes
    (report : string) (dirs : list string) (name : string) (w : world) :
  dirs <> [] -> Forall plain_name dirs -> plain_name name ->
  is_writable_dir (fstree.lookup (root w) (cwd w)) ->
  (forall pre, pre <> [] -> pre `prefix_of` dirs ->
     dir_or_missing (root w) (cwd w ++ pre)) ->
  file_or_missing (root w) (cwd w ++ dirs ++ [name]) ->
  let filename := pystr.join "/" (dirs ++ [name]) in
  let dest := cwd w ++ dirs ++ [name] in
  exists w1 w',
    os.makedirs (os.path.dirname filename) w = (Ok tt, w1)
    /\ write_text filename report w1 = (Ok tt, w')
    /\ save_report report filename w = (Ok tt, w')
    /\ (forall pre, pre `prefix_of` dirs ->
          is_dir (fstree.lookup (root w1) (cwd w ++ pre))
          /\ is_dir (fstree.lookup (root w') (cwd w ++ pre)))
    /\ file_content (root w') dest = Some report
    /\ (forall q, ~ q `prefix_of` dest -> ~ dest `prefix_of` q ->
          fstree.lookup (root w') q = fstree.lookup (root w) q)
    /\ cwd w' = cwd w /\ stdout w' = stdout w.
Proof.
  intros Hne Hdirs Hname Hcwd Hchain Hfile filename dest.
  assert (Hp : Forall plain_name (dirs ++ [name])).
  { apply Forall_app. split; [exact Hdirs|constructor; [exact Hname|constructor]]. }
  destruct (makedirs_rec_plain dirs Hne Hdirs
              (S (String.length (pystr.join "/" dirs))) w)
    as (w1 & Hrun1 & Hg1 & Hw1); try assumption.
  { pose proof (length_join dirs Hdirs). lia. }
  pose proof Hg1 as (Hc1 & Ho1 & Hf1 & Hk1).
  assert (Hmk : os.makedirs (os.path.dirname filename) w = (Ok tt, w1)).
  { unfold filename. rewrite dirname_join by assumption. exact Hrun1. }
  assert (Hdest1 : fstree.lookup (root w1) dest = fstree.lookup (root w) dest).
  { apply Hf1. unfold dest. rewrite (app_assoc (cwd w) dirs [name]).
    apply prefix_snoc_not. }
  assert (Hpar1 : exists ents,
            fstree.lookup (root w1) (cwd w1 ++ dirs) = Some (Dir true ents)).
  { rewrite Hc1. specialize (Hw1 dirs (reflexivity dirs)).
    destruct (fstree.lookup (root w1) (cwd w ++ dirs)) as [[rd wr t|[] ents]|];
      try contradiction. eauto. }
  destruct Hpar1 as [ents Hpar1].
  assert (Hwrite : exists rd,
            write_text filename report w1
            = (Ok tt, fstree.set_root w1
                        (fstree.update (root w1) dest (File rd true report)))).
  { unfold file_or_missing in Hfile. fold dest in Hfile. rewrite <- Hdest1 in Hfile.
    unfold dest in *. rewrite <- Hc1 in *.
    destruct (fstree.lookup (root w1) (cwd w1 ++ dirs ++ [name]))
      as [[rd [] t|wr ents']|] eqn:E; try contradiction.
    - exists rd. apply (write_text_join_over w1 dirs name Hp report t rd E).
    - exists true. apply (write_text_join_new w1 dirs name Hp report ents Hpar1 E). }
  destruct Hwrite as [rd Hwrite].
  eexists w1, _. split; [exact Hmk|]. split; [exact Hwrite|]. split.
  { unfold save_report, bind. rewrite Hmk. exact Hwrite. }
  assert (Hdir1 : is_dir (fstree.lookup (root w1) (cwd w ++ dirs))).
  { rewrite <- Hc1, Hpar1. exact I. }
  cbn [root cwd stdout decompress fstree.set_root]. repeat split.
  - specialize (Hw1 pre H).
    destruct (fstree.lookup (root w1) (cwd w ++ pre)) as [[? ? ?|[] ?]|];
      try contradiction; exact I.
  - specialize (Hw1 pre H). destruct H as [post ->].
    destruct (fstree.lookup (root w1) (cwd w ++ pre)) as [[? ? ?|wr e]|] eqn:E;
      try contradiction.
    unfold dest.
    replace (cwd w ++ (pre ++ post) ++ [name]) with ((cwd w ++ pre) ++ (post ++ [name]))
      by (rewrite <- !app_assoc; reflexivity).
    destruct (lookup_update_ancestor (root w1) (cwd w ++ pre) (post ++ [name])
                (File rd true report) wr e (snoc_not_nil _ _) E) as [e' ->].
    exact I.
  - unfold file_content, dest. rewrite (app_assoc (cwd w) dirs [name]).
    rewrite lookup_update_same by exact Hdir1. reflexivity.
  - intros q Hq1 Hq2. rewrite lookup_update_other by assumption.
    apply Hf1. intros Hq. apply Hq1. unfold dest.
    rewrite (app_assoc (cwd w) dirs [name]). apply prefix_app_r, Hq.
  - exact Hc1.
  - exact Ho1.
Qed.

Lemma save_report_creates_and_writes_witness :
  exists w1 w',
    os.makedirs (os.path.dirname "output/analysis_report.txt") (world_with_input "")
    = (Ok tt, w1)
    /\ write_text "output/analysis_report.txt" "text" w1 = (Ok tt, w')
    /\ save_report "text" "output/analysis_report.txt" (world_with_input "") = (Ok tt, w')
    /\ (forall pre, pre `prefix_of` ["output"] ->
          is_dir (fstree.lookup (root w1) (["home"] ++ pre))
          /\ is_dir (fstree.lookup (root w') (["home"] ++ pre)))
    /\ file_content (root w') (["home"] ++ ["output"] ++ ["analysis_report.txt"])
       = Some "text"
    /\ (forall q, ~ q `prefix_of` (["home"] ++ ["output"] ++ ["analysis_report.txt"]) ->
          ~ (["home"] ++ ["output"] ++ ["analysis_report.txt"]) `prefix_of` q ->
          fstree.lookup (root w') q = fstree.lookup (root (world_with_input "")) q)
    /\ cwd w' = ["home"] /\ stdout w' = [].
Proof.
  apply (save_report_creates_and_writes "text" ["output"] "analysis_report.txt"
           (world_with_input "")).
  - discriminate.
  - repeat constructor; discriminate.
  - repeat constructor; discriminate.
  - exact I.
  - intros pre Hne Hpre. apply (prefix_snoc_inv pre [] "output") in Hpre as [->|Hpre].
    + exact I.
    + apply prefix_nil_inv in Hpre. contradiction.
  - exact I.
Defined.

(** C7 as stated fails: with a regular file in the place of the directory
    [save_report] raises FileExistsError, and with a destination without
    directory it raises FileNotFoundError; nothing is written. *)
Lemma save_report_not_every_path :
  save_report "text" "output/analysis_report.txt" world_output_is_file
  = (Raise FileExistsError, world_output_is_file)
  /\ save_report "text" "report.txt" (world_with_input "")
     = (Raise FileNotFoundError, world_with_input "")
  /\ file_content (root (snd (save_report "text" "report.txt" (world_with_input ""))))
       ["home"; "report.txt"] = None.
Proof. repeat split; vm_compute; reflexivity. Qed.

(** ** What a successful write says about the world *)

Section RelativePathInversion.
Variable w : world.
Variable ds : list string.
Variable d : string.
Hypothesis plain : Forall plain_name (ds ++ [d]).

Lemma resolve_join_inv (p : list string) :
  fstree.resolve w (pystr.join "/" (ds ++ [d])) = Ok p ->
  p = cwd w ++ ds ++ [d] /\ is_dir (fstree.lookup (root w) (cwd w ++ ds)).
Proof.
  intros H.
  destruct (fstree.lookup (root w) (cwd w ++ ds)) as [[rd wr t|wr ents]|] eqn:E.
  - destruct (resolve_join_fail w ds d plain) as [e He]; [rewrite E; auto|congruence].
  - rewrite (resolve_join w ds d plain) in H by (rewrite E; exact I).
    split; [congruence|exact I].
  - destruct (resolve_join_fail w ds d plain) as [e He]; [rewrite E; auto|congruence].
Qed.

Lemma text_at_join (c : string) :
  text_at (pystr.join "/" (ds ++ [d])) w = Some c <->
  file_content (root w) (cwd w ++ ds ++ [d]) = Some c.
Proof.
  unfold text_at, file_content.
  destruct (fstree.lookup (root w) (cwd w ++ ds ++ [d])) as [n|] eqn:E.
  - rewrite (stat_join_Some w ds d plain n E). reflexivity.
  - destruct (stat_join_None w ds d plain E) as [e ->]. reflexivity.
Qed.

Lemma mkdir_exist_ok_inv (w1 : world) :
  os.mkdir_exist_ok (pystr.join "/" (ds ++ [d])) w = (Ok tt, w1) ->
  grows_along (cwd w ++ ds ++ [d]) w w1
  /\ is_dir (fstree.lookup (root w1) (cwd w ++ ds ++ [d])).
Proof.
  unfold os.mkdir_exist_ok, os.mkdir, os.path.isdir.
  destruct (fstree.resolve w (pystr.join "/" (ds ++ [d]))) as [p|e] eqn:Er.
  - destruct (resolve_join_inv p Er) as [-> Hpar].
    destruct (fstree.lookup (root w) (cwd w ++ ds ++ [d])) as [n|] eqn:E.
    + rewrite (stat_join_Some w ds d plain n E).
      destruct n as [rd wr t|wr ents]; intros H; inversion H; subst.
      split; [apply grows_along_refl|rewrite E; exact I].
    + unfold fstree.parent. rewrite app_assoc, removelast_last.
      destruct (fstree.lookup (root w) (cwd w ++ ds)) as [[rd wr t|[] ents]|] eqn:Ep;
        try contradiction.
      * intros H. inversion H; subst. split.
        -- apply update_new_grows; [rewrite Ep; exact I|rewrite <- app_assoc; exact E|].
           intros [|c q] Hq; [contradiction|apply lookup_empty_dir].
        -- cbn [root fstree.set_root].
           rewrite lookup_update_same by (rewrite Ep; exact I). exact I.
      * destruct (stat_join_None w ds d plain E) as [e ->]. discriminate.
  - unfold fstree.stat. rewrite Er. cbn. discriminate.
Qed.

Lemma write_text_inv (text : string) (w1 : world) :
  write_text (pystr.join "/" (ds ++ [d])) text w = (Ok tt, w1) ->
  exists rd,
    w1 = fstree.set_root w
           (fstree.update (root w) (cwd w ++ ds ++ [d]) (File rd true text))
    /\ is_dir (fstree.lookup (root w) (cwd w ++ ds))
    /\ ~ is_dir (fstree.lookup (root w) (cwd w ++ ds ++ [d])).
Proof.
  unfold write_text.
  destruct (fstree.resolve w (pystr.join "/" (ds ++ [d]))) as [p|e] eqn:Er;
    [|discriminate].
  destruct (resolve_join_inv p Er) as [-> Hpar].
  destruct (fstree.lookup (root w) (cwd w ++ ds ++ [d])) as [[rd [] t|wr ents]|] eqn:E;
    try discriminate.
  - intros H. inversion H. exists rd. repeat split; auto.
  - unfold fstree.parent. rewrite app_assoc, removelast_last.
    destruct (fstree.lookup (root w) (cwd w ++ ds)) as [[rd wr t|[] ents]|] eqn:Ep;
      try discriminate.
    intros H. inversion H. exists true. rewrite <- app_assoc. repeat split; auto.
Qed.

End RelativePathInversion.

(** ** Two runs of the pipeline *)

Lemma update_same_node (n : node) (p : list string) (x : node) :
  fstree.lookup n p = Some x -> fstree.update n p x = n.
Proof.
  revert n. induction p as [|c p IH]; intros n H.
  - cbn in *. congruence.
  - cbn [fstree.lookup] in H. destruct n as [rd wr t|wr ents]; [discriminate|].
    destruct (ents !! c) as [n'|] eqn:E; [|discriminate].
    destruct p as [|c' p].
    + cbn in *. injection H as ->. rewrite insert_id by assumption. reflexivity.
    + rewrite update_cons, E by discriminate. rewrite (IH n' H).
      rewrite insert_id by assumption. reflexivity.
Qed.

Lemma set_root_same (w : world) : fstree.set_root w (root w) = w.
Proof. destruct w. reflexivity. Qed.

Lemma mkdir_exist_ok_existing (w : world) (ds : list string) (d : string) :
  Forall plain_name (ds ++ [d]) ->
  is_dir (fstree.lookup (root w) (cwd w ++ ds ++ [d])) ->
  os.mkdir_exist_ok (pystr.join "/" (ds ++ [d])) w = (Ok tt, w).
Proof.
  intros Hp Hd. unfold os.mkdir_exist_ok, os.path.isdir.
  destruct (fstree.lookup (root w) (cwd w ++ ds ++ [d])) as [[rd wr t|wr ents]|] eqn:E;
    try contradiction.
  rewrite (mkdir_join_exists w ds d Hp _ E), (stat_join_Some w ds d Hp _ E).
  reflexivity.
Qed.

Lemma input_plain : Forall plain_name ([] ++ ["health_data.csv"]).
Proof. repeat constructor; discriminate. Qed.

Lemma output_dir_plain : Forall plain_name ([] ++ ["output"]).
Proof. repeat constructor; discriminate. Qed.

Lemma output_plain : Forall plain_name (["output"] ++ ["analysis_report.txt"]).
Proof. repeat constructor; discriminate. Qed.

Lemma not_prefix_sibling (base : list string) (a b : string) (l : list string) :
  a <> b -> ~ (base ++ [a]) `prefix_of` (base ++ b :: l)
            /\ ~ (base ++ b :: l) `prefix_of` (base ++ [a]).
Proof.
  intros Hab. split; intros H; apply prefix_app_inv in H;
    apply prefix_cons_inv_1 in H; congruence.
Qed.

(** The stages of a successful run. *)
Lemma main_success_inv (w w' : world) :
  os.path.exists_ input_path w = true ->
  main w = (Ok tt, w') ->
  exists content report w1 w2,
    read_text input_path w = (Ok content, w)
    /\ report_of content = Ok report
    /\ os.mkdir_exist_ok "output" w = (Ok tt, w1)
    /\ write_text output_path report w1 = (Ok tt, w2)
    /\ w' = World (root w2) (cwd w2) (stdout w2 ++ [success_message]) (decompress w2).
Proof.
  intros He H. unfold main, save_report, print in H.
  repeat unfold bind, lift, ret in H.
  change (os.path.dirname "output/analysis_report.txt") with "output" in H.
  change (os.makedirs "output") with (os.mkdir_exist_ok "output") in H.
  rewrite (load_data_found "health_data.csv" w input_plain_extension He) in H.
  destruct (read_text "health_data.csv" w) as [[content|e] w0] eqn:Er; [|discriminate].
  assert (w0 = w) as -> by (apply (read_text_world _ _ _ _ Er)).
  destruct (np.parse content) as [data|e] eqn:Ep; [|discriminate].
  destruct (np.len data) as [total|e] eqn:El; [|discriminate].
  destruct (generate_report _ _ total) as [report|e] eqn:Eg; [|discriminate].
  destruct (os.mkdir_exist_ok "output" w) as [[[]|e] w1] eqn:Em; [|discriminate].
  destruct (write_text "output/analysis_report.txt" report w1) as [[[]|e] w2] eqn:Ew;
    [|discriminate].
  exists content, report, w1, w2. split; [exact Er|]. split.
  { unfold report_of. rewrite Ep. cbn [rbind]. rewrite El. cbn [rbind]. exact Eg. }
  split; [reflexivity|]. split; [exact Ew|]. congruence.
Qed.

Lemma read_text_text_at (path content : string) (w : world) :
  read_text path w = (Ok content, w) -> text_at path w = Some content.
Proof.
  unfold read_text, text_at, fstree.stat, rbind.
  destruct (fstree.resolve w path) as [p|e]; [|discriminate].
  destruct (fstree.lookup (root w) p) as [[[] wr t|wr ents]|]; congruence.
Qed.

Lemma main_stages (w w1 w2 : world) (content report : string) :
  read_text input_path w = (Ok content, w) ->
  report_of content = Ok report ->
  os.mkdir_exist_ok "output" w = (Ok tt, w1) ->
  write_text output_path report w1 = (Ok tt, w2) ->
  main w = (Ok tt, World (root w2) (cwd w2) (stdout w2 ++ [success_message]) (decompress w2)).
Proof.
  intros Hr Hrep Hm Hw. unfold main, save_report, print.
  repeat unfold bind, lift, ret.
  change (os.path.dirname "output/analysis_report.txt") with "output".
  change (os.makedirs "output") with (os.mkdir_exist_ok "output").
  unfold input_path, output_path in *.
  rewrite (load_data_found "health_data.csv" w input_plain_extension
             (read_text_exists _ _ _ Hr)), Hr.
  unfold report_of in Hrep.
  destruct (np.parse content) as [data|e]; [|discriminate]. cbn [rbind] in Hrep.
  destruct (np.len data) as [total|e]; [|discriminate]. cbn [rbind] in Hrep.
  rewrite Hrep, Hm, Hw. reflexivity.
Qed.

(** A successful run leaves the report in the output file and the input
    file as it was, and a second run from there succeeds and changes
    nothing but the standard output. *)
Lemma main_run (w w' : world) (content : string) :
  text_at input_path w = Some content ->
  main w = (Ok tt, w') ->
  exists report,
    report_of content = Ok report
    /\ text_at output_path w' = Some report
    /\ text_at input_path w' = Some content
    /\ main w' = (Ok tt, World (root w') (cwd w') (stdout w' ++ [success_message]) (decompress w')).
Proof.
  intros Hin Hmain.
  destruct (main_success_inv w w' (text_at_exists _ _ _ Hin) Hmain)
    as (c & report & w1 & w2 & Hr & Hrep & Hm & Hw & ->).
  assert (c = content) as ->.
  { apply read_text_text_at in Hr. congruence. }
  exists report. split; [exact Hrep|].
  (* the world after the directory and after the file *)
  destruct (mkdir_exist_ok_inv w [] "output" output_dir_plain w1 Hm)
    as ((Hc1 & Ho1 & Hf1 & Hk1) & Hd1).
  destruct (write_text_inv w1 ["output"] "analysis_report.txt" output_plain report w2 Hw)
    as (rd & -> & Hpar & Hnd).
  cbn [root cwd stdout decompress fstree.set_root]. rewrite Hc1 in *.
  set (dest := cwd w ++ ["output"] ++ ["analysis_report.txt"]) in *.
  set (root2 := fstree.update (root w1) dest (File rd true report)).
  set (w2 := World root2 (cwd w) (stdout w1 ++ [success_message]) (decompress w1)).
  assert (Hout : fstree.lookup root2 dest = Some (File rd true report)).
  { unfold root2, dest. rewrite (app_assoc (cwd w)).
    apply lookup_update_same. exact Hpar. }
  assert (Hin2 : fstree.lookup root2 (cwd w ++ [] ++ ["health_data.csv"])
                 = fstree.lookup (root w) (cwd w ++ [] ++ ["health_data.csv"])).
  { cbn [app]. unfold root2, dest.
    destruct (not_prefix_sibling (cwd w) "health_data.csv" "output"
                ["analysis_report.txt"] ltac:(discriminate)) as [N1 N2].
    rewrite lookup_update_other by assumption.
    apply Hf1. intros Hp. apply N1. cbn [app] in *.
    destruct Hp as [k Hk]. exists (k ++ ["analysis_report.txt"]).
    rewrite app_assoc, <- Hk, <- app_assoc. reflexivity. }
  assert (Hdir2 : is_dir (fstree.lookup root2 (cwd w ++ [] ++ ["output"]))).
  { cbn [app]. unfold root2, dest.
    destruct (fstree.lookup (root w1) (cwd w ++ ["output"])) as [[? ? ?|wr e]|] eqn:E;
      try contradiction.
    replace (cwd w ++ ["output"] ++ ["analysis_report.txt"])
      with ((cwd w ++ ["output"]) ++ ["analysis_report.txt"])
      by (rewrite <- app_assoc; reflexivity).
    destruct (lookup_update_ancestor (root w1) (cwd w ++ ["output"])
                ["analysis_report.txt"] (File rd true report) wr e
                ltac:(discriminate) E) as [e' ->].
    exact I. }
  assert (Hout_text : text_at output_path w2 = Some report).
  { apply (text_at_join w2 ["output"] "analysis_report.txt" output_plain).
    unfold file_content. cbn [root cwd w2]. fold dest. rewrite Hout. reflexivity. }
  assert (Hin_text : text_at input_path w2 = Some content).
  { apply (text_at_join w2 [] "health_data.csv" input_plain).
    unfold file_content. cbn [root cwd w2]. rewrite Hin2.
    apply (text_at_join w [] "health_data.csv" input_plain). exact Hin. }
  split; [exact Hout_text|]. split; [exact Hin_text|].
  (* the second run *)
  assert (Hr2 : read_text input_path w2 = (Ok content, w2)).
  { unfold read_text in *. unfold input_path in *.
    change "health_data.csv"
      with (pystr.join "/" ([] ++ ["health_data.csv"])) in Hr |- * at 1.
    rewrite (resolve_join w2 [] "health_data.csv" input_plain).
    - rewrite (resolve_join w [] "health_data.csv" input_plain) in Hr.
      + cbn [root cwd w2]. rewrite Hin2.
        destruct (fstree.lookup (root w) (cwd w ++ [] ++ ["health_data.csv"]))
          as [[[] ? ?|? ?]|]; congruence.
      + destruct (fstree.resolve w (pystr.join "/" ([] ++ ["health_data.csv"])))
          as [p|e] eqn:E; [|discriminate].
        apply (resolve_join_inv w [] "health_data.csv" input_plain p E).
    - cbn [root cwd w2]. apply (is_dir_prefix root2 (cwd w ++ []) ["output"]).
      rewrite <- app_assoc. exact Hdir2. }
  rewrite (main_stages w2 w2 w2 content report Hr2 Hrep).
  - reflexivity.
  - apply (mkdir_exist_ok_existing w2 [] "output" output_dir_plain). exact Hdir2.
  - unfold output_path.
    change "output/analysis_report.txt"
      with (pystr.join "/" (["output"] ++ ["analysis_report.txt"])).
    rewrite (write_text_join_over w2 ["output"] "analysis_report.txt" output_plain
               report report rd) by exact Hout.
    cbn [root cwd w2]. fold dest. rewrite (update_same_node root2 dest _ Hout).
    reflexivity.
Qed.

Lemma pair_of_fst {A B} (p : A * B) (a : A) : fst p = a -> p = (a, snd p).
Proof. destruct p. cbn. intros ->. reflexivity. Qed.

(** C8: the report is a function of the text of the input file.  Two runs
    that succeed on worlds with the same input text leave the same text in
    the output file; a run leaves the input file as it was, and a second
    run from the world it leaves succeeds and changes no file. *)
Theorem main_deterministic (content : string) (w1 w2 w1' w2' : world) :
  text_at input_path w1 = Some content ->
  text_at input_path w2 = Some content ->
  main w1 = (Ok tt, w1') ->
  main w2 = (Ok tt, w2') ->
  exists report,
    report_of content = Ok report
    /\ text_at output_path w1' = Some report
    /\ text_at output_path w2' = Some report
    /\ text_at input_path w1' = Some content
    /\ main w1' = (Ok tt, World (root w1') (cwd w1') (stdout w1' ++ [success_message]) (decompress w1')).
Proof.
  intros Hin1 Hin2 Hm1 Hm2.
  destruct (main_run w1 w1' content Hin1 Hm1) as (r1 & Hr1 & Ho1 & Hi1 & Hs1).
  destruct (main_run w2 w2' content Hin2 Hm2) as (r2 & Hr2 & Ho2 & _ & _).
  assert (r2 = r1) as -> by congruence.
  exists r1. repeat split; assumption.
Qed.

Lemma main_deterministic_witness :
  exists report,
    report_of sample_csv = Ok report
    /\ text_at output_path (snd (main (world_with_input sample_csv))) = Some report
    /\ text_at output_path (snd (main (world_with_old_report sample_csv))) = Some report
    /\ text_at input_path (snd (main (world_with_input sample_csv))) = Some sample_csv
    /\ main (snd (main (world_with_input sample_csv)))
       = (Ok tt, World (root (snd (main (world_with_input sample_csv))))
                       (cwd (snd (main (world_with_input sample_csv))))
                       (stdout (snd (main (world_with_input sample_csv)))
                        ++ [success_message])
                       (decompress (snd (main (world_with_input sample_csv))))).
Proof.
  apply (main_deterministic sample_csv (world_with_input sample_csv)
           (world_with_old_report sample_csv)).
  - vm_compute. reflexivity.
  - vm_compute. reflexivity.
  - apply pair_of_fst. vm_compute. reflexivity.
  - apply pair_of_fst. vm_compute. reflexivity.
Defined.

(** ** The rows of a file and the total of the report *)

Lemma splitlines_line (l rest : string) :
  no_line_break l -> np.splitlines (l +:+ NL +:+ rest) = l :: np.splitlines rest.
Proof.
  intros [Hlf Hcr]. induction l as [|c l IH].
  - reflexivity.
  - cbn [pystr.mem] in Hlf, Hcr.
    apply orb_false_iff in Hlf as [Hc1 Hl1]. apply orb_false_iff in Hcr as [Hc2 Hl2].
    rewrite (append_cons c l). cbn [np.splitlines]. rewrite Hc1, Hc2.
    rewrite (IH Hl1 Hl2). reflexivity.
Qed.

Lemma splitlines_lines (lines : list string) :
  Forall no_line_break lines ->
  np.splitlines (fold_right (fun l acc => l +:+ NL +:+ acc) "" lines) = lines.
Proof.
  induction 1 as [|l lines Hl Hls IH]; [reflexivity|].
  cbn [fold_right]. rewrite splitlines_line by assumption. rewrite IH. reflexivity.
Qed.

Lemma splitlines_file_text (header : string) (lines : list string) :
  no_line_break header -> Forall no_line_break lines ->
  np.splitlines (file_text header lines) = header :: lines.
Proof.
  intros Hh Hl. unfold file_text. rewrite splitlines_line by assumption.
  rewrite splitlines_lines by assumption. reflexivity.
Qed.

Lemma valid_lines_no_break (lines : list string) :
  Forall valid_line lines -> Forall no_line_break lines.
Proof. intros H. eapply Forall_impl; [exact H|]. intros l (Hl & _). exact Hl. Qed.

Lemma value_rows_valid (header : string) (lines : list string) :
  no_line_break header -> Forall valid_line lines ->
  np.value_rows (file_text header lines) = List.map np.split_line lines.
Proof.
  intros Hh Hl. unfold np.value_rows.
  rewrite splitlines_file_text by (assumption || apply valid_lines_no_break, Hl).
  cbn [tl]. induction Hl as [|l lines (_ & Hlen & _) Hls IH]; [reflexivity|].
  cbn [List.map List.filter]. rewrite IH.
  destruct (np.split_line l); [discriminate|]. reflexivity.
Qed.

Lemma sequence_rows (lines : list string) :
  Forall valid_line lines ->
  exists rows,
    Forall2 (fun l r => row_of_line l = Ok r) lines rows
    /\ rbind (np.sequence (List.map np.convert_row (List.map np.split_line lines)))
         (fun tuples => np.sequence (List.map np.to_element tuples))
       = Ok rows.
Proof.
  induction 1 as [|l lines (_ & _ & r & Hr) Hls (rows & Hrows & IH)].
  - exists []. split; [constructor|reflexivity].
  - exists (r :: rows). split; [constructor; assumption|].
    unfold row_of_line in Hr. cbn [List.map np.sequence].
    destruct (np.convert_row (np.split_line l)) as [t|e]; [|discriminate].
    cbn [rbind] in *.
    destruct (np.sequence (List.map np.convert_row (List.map np.split_line lines)))
      as [ts|e]; [|discriminate].
    cbn [rbind List.map np.sequence] in *. rewrite Hr. cbn [rbind]. rewrite IH.
    reflexivity.
Qed.

(** [genfromtxt] on a file of valid rows: one element per row, squeezed. *)
Lemma parse_valid_file (header : string) (lines : list string) :
  no_line_break header -> Forall valid_line lines ->
  exists rows,
    Forall2 (fun l r => row_of_line l = Ok r) lines rows
    /\ np.parse (file_text header lines) = Ok (np.squeeze (np.Vector rows)).
Proof.
  intros Hh Hl. destruct (sequence_rows lines Hl) as (rows & Hrows & Hseq).
  exists rows. split; [exact Hrows|]. unfold np.parse.
  rewrite value_rows_valid by assumption.
  destruct lines as [|l lines].
  - inversion Hrows; subst. reflexivity.
  - cbn [List.map].
    assert (Hall : forallb (fun vs => Nat.eqb (length vs) (length (np.split_line l)))
                     (np.split_line l :: List.map np.split_line lines) = true).
    { inversion Hl as [|? ? (_ & Hlen & _) Hls]; subst.
      apply forallb_forall. intros vs Hin. apply Nat.eqb_eq. rewrite Hlen.
      destruct Hin as [<-|Hin]; [exact Hlen|].
      apply in_map_iff in Hin as (l' & <- & Hin').
      rewrite List.Forall_forall in Hls. destruct (Hls l' Hin') as (_ & H8 & _).
      exact H8. }
    rewrite Hall. cbn [List.map] in Hseq.
    destruct (np.sequence (np.convert_row (np.split_line l)
                           :: List.map np.convert_row (List.map np.split_line lines)))
      as [ts|e]; [|discriminate].
    cbn [rbind] in *. rewrite Hseq. reflexivity.
Qed.

Lemma squeeze_not_single {A} (rows : list A) :
  length rows <> 1%nat -> np.squeeze (np.Vector rows) = np.Vector rows.
Proof. destruct rows as [|r [|r' rows]]; cbn; intros H; try reflexivity. lia. Qed.

Lemma report_of_vector (content : string) (rows : list Reading) :
  np.parse content = Ok (np.Vector rows) ->
  exists avg_hr avg_bp avg_gl high_hr high_bp high_gl,
    report_of content
    = Ok (report_template (Z.of_nat (length rows))
            avg_hr avg_bp avg_gl high_hr high_bp high_gl).
Proof.
  intros Hp. unfold report_of. rewrite Hp. cbn [rbind np.len].
  do 6 eexists. apply generate_report_ok; reflexivity.
Qed.


(** With a header and a number of valid rows other than one, the report
    states that number as the total. *)
Lemma report_total_readings (header : string) (lines : list string) :
  no_line_break header -> Forall valid_line lines -> length lines <> 1%nat ->
  exists avg_hr avg_bp avg_gl high_hr high_bp high_gl,
    report_of (file_text header lines)
    = Ok (report_template (Z.of_nat (length lines))
            avg_hr avg_bp avg_gl high_hr high_bp high_gl).
Proof.
  intros Hh Hl Hn. destruct (parse_valid_file header lines Hh Hl) as (rows & Hrows & Hp).
  pose proof (Forall2_length _ _ _ Hrows) as Hlen.
  rewrite squeeze_not_single in Hp by lia.
  rewrite Hlen. apply report_of_vector, Hp.
Qed.



(** C2, at an input with a header and one valid row: [load_data] returns an
    array of dimension zero, [len(data)] raises TypeError, and the run ends
    without report and without output file; the claim asks for a report
    that states the total 1. *)
Theorem main_single_row_no_report :
  single_row_csv
  = file_text
      "patient_id,timestamp,heart_rate,blood_pressure_systolic,blood_pressure_diastolic,temperature,glucose_level,sensor_id"
      ["P001,2024-01-15 08:00:00,95,120,80,36.6,100,S001"]
  /\ fst (load_data input_path (world_with_input single_row_csv))
     = Ok (np.Scalar
             {| patient_id := "P001"; timestamp := "2024-01-15 08:00:00";
                heart_rate := 95; blood_pressure_systolic := 120;
                blood_pressure_diastolic := 80;
                temperature := S754_finite false 9594470 (-18);
                glucose_level := 100; sensor_id := "S001" |})
  /\ main (world_with_input single_row_csv)
     = (Raise TypeError, world_with_input single_row_csv)
  /\ text_at output_path (snd (main (world_with_input single_row_csv))) = None.
Proof. repeat split; vm_compute; reflexivity. Qed.

(** ** Rows that do not fit the schema *)





Section TwoPhases.
Context {A B C : Type}.
Variable f : A -> result B.
Variable g : B -> result C.
Variable P : A -> C -> Prop.

End TwoPhases.










Example load_data_ragged :
  ragged ragged_csv = true
  /\ load_data input_path (world_with_input ragged_csv)
     = (Raise ValueError, world_with_input ragged_csv).
Proof. split; vm_compute; reflexivity. Qed.

(** ** Numerals with one decimal *)

Lemma pretty_N_char_digit (x : N) : pyfloat.is_digit (pretty_N_char x) = true.
Proof. unfold pretty_N_char. repeat case_match; reflexivity. Qed.

Lemma pretty_N_go_digits (x : N) (s : string) :
  pystr.all pyfloat.is_digit s = true ->
  pystr.all pyfloat.is_digit (pretty_N_go x s) = true.
Proof.
  revert s. induction (N.lt_wf_0 x) as [x _ IH]; intros s Hs.
  destruct (decide (x = 0)%N) as [->|Hx]; [rewrite pretty_N_go_0; exact Hs|].
  rewrite pretty_N_go_step by lia. apply IH.
  - apply N.div_lt; lia.
  - cbn [pystr.all]. rewrite pretty_N_char_digit, Hs. reflexivity.
Qed.

Lemma pretty_N_go_not_empty (x : N) (s : string) :
  s <> "" -> pretty_N_go x s <> "".
Proof.
  revert s. induction (N.lt_wf_0 x) as [x _ IH]; intros s Hs.
  destruct (decide (x = 0)%N) as [->|Hx]; [rewrite pretty_N_go_0; exact Hs|].
  rewrite pretty_N_go_step by lia. apply IH; [apply N.div_lt; lia|discriminate].
Qed.

Lemma of_int_digits (n : Z) :
  0 <= n ->
  pystr.of_int n <> "" /\ pystr.all pyfloat.is_digit (pystr.of_int n) = true.
Proof.
  intros Hn. unfold pystr.of_int, pretty, pretty_Z.
  destruct n as [|p|p]; [split; [discriminate|reflexivity]| |lia].
  unfold pretty, pretty_positive, pretty, pretty_N.
  destruct (decide (N.pos p = 0%N)); [discriminate|]. split.
  - rewrite pretty_N_go_step by lia. apply pretty_N_go_not_empty. discriminate.
  - apply pretty_N_go_digits. reflexivity.
Qed.

Lemma of_int_one_digit (n : Z) :
  0 <= n < 10 ->
  exists d, pystr.of_int n = String d "" /\ pyfloat.is_digit d = true.
Proof.
  intros Hn.
  assert (exists k : nat, n = Z.of_nat k /\ (k < 10)%nat) as (k & -> & Hk)
    by (exists (Z.to_nat n); lia).
  do 10 (destruct k as [|k]; [eexists; split; reflexivity|]).
  lia.
Qed.

Lemma fixed1_one_decimal (neg : bool) (t : Z) :
  0 <= t -> one_decimal (pyfloat.fixed1 neg t).
Proof.
  intros Ht. unfold pyfloat.fixed1.
  destruct (of_int_digits (t / 10)) as [Hne Hdig]; [apply Z.div_pos; lia|].
  destruct (of_int_one_digit (t mod 10)) as (d & Hd & Hdd);
    [apply Z.mod_pos_bound; lia|].
  exists neg, (pystr.of_int (t / 10)), d. rewrite Hd. repeat split; assumption.
Qed.

Lemma round_half_even_nonneg (n d : Z) :
  0 <= n -> 0 < d -> 0 <= pyfloat.round_half_even n d.
Proof.
  intros Hn Hd. unfold pyfloat.round_half_even.
  assert (0 <= n / d) by (apply Z.div_pos; lia).
  destruct (2 * (n mod d) ?= d); [destruct (Z.even (n / d))| |]; lia.
Qed.

Lemma tenths_nonneg (m : positive) (e : Z) : 0 <= pyfloat.tenths m e.
Proof.
  unfold pyfloat.tenths. destruct e as [|k|k].
  - lia.
  - pose proof (Z.pow_pos_nonneg 2 (Z.pos k)). lia.
  - apply round_half_even_nonneg; [lia|]. apply Z.pow_pos_nonneg; lia.
Qed.

(** Whatever its magnitude, a binary64 number is printed with exactly one
    digit after the point. *)
Lemma format_1f_one_decimal (x : spec_float) :
  is_finite x = true -> one_decimal (pyfloat.format_1f x).
Proof.
  destruct x as [s|s| |s m e]; try discriminate; intros _; cbn [pyfloat.format_1f].
  - apply fixed1_one_decimal. lia.
  - apply fixed1_one_decimal, tenths_nonneg.
Qed.

(** ** Averages in binary64 *)

Lemma digits2_pos_bounds (p : positive) :
  2 ^ (Z.pos (digits2_pos p) - 1) <= Z.pos p < 2 ^ Z.pos (digits2_pos p).
Proof.
  induction p as [p IH|p IH|]; cbn [digits2_pos].
  - rewrite Pos2Z.inj_succ. replace (Z.succ (Z.pos (digits2_pos p)) - 1)
      with (Z.succ (Z.pos (digits2_pos p) - 1)) by lia.
    rewrite !Z.pow_succ_r by lia. lia.
  - rewrite Pos2Z.inj_succ. replace (Z.succ (Z.pos (digits2_pos p)) - 1)
      with (Z.succ (Z.pos (digits2_pos p) - 1)) by lia.
    rewrite !Z.pow_succ_r by lia. lia.
  - cbn. lia.
Qed.

Lemma digits2_pos_unique (p : positive) (d : Z) :
  2 ^ (d - 1) <= Z.pos p < 2 ^ d -> Z.pos (digits2_pos p) = d.
Proof.
  intros [Hlo Hhi]. pose proof (digits2_pos_bounds p) as [Blo Bhi].
  assert (0 < d).
  { destruct (Z.ltb_spec 0 d); [assumption|].
    exfalso. destruct d as [|d|d]; [cbn in Hhi; lia|lia|].
    rewrite Z.pow_neg_r in Hhi by lia. lia. }
  destruct (Z.lt_trichotomy (Z.pos (digits2_pos p)) d) as [Hlt|[Heq|Hgt]]; [|exact Heq|].
  - exfalso. assert (2 ^ Z.pos (digits2_pos p) <= 2 ^ (d - 1))
      by (apply Z.pow_le_mono_r; lia). lia.
  - exfalso. assert (2 ^ d <= 2 ^ (Z.pos (digits2_pos p) - 1))
      by (apply Z.pow_le_mono_r; lia). lia.
Qed.

Lemma iter_xO (p k : positive) : Z.pos (Pos.iter xO p k) = Z.pos p * 2 ^ Z.pos k.
Proof.
  induction k as [|k IH] using Pos.peano_ind.
  - cbn. lia.
  - rewrite Pos.iter_succ, Pos2Z.inj_succ, Z.pow_succ_r by lia.
    rewrite Pos2Z.inj_xO, IH. lia.
Qed.

Lemma fexp_normal (x : Z) : -1021 <= x -> fexp 53 1024 x = x - 53.
Proof. intros H. unfold fexp, emin. lia. Qed.

Lemma shr_fexp_normal (m : positive) (e : Z) (l : location) :
  Z.pos (digits2_pos m) = 53 -> -1074 <= e ->
  shr_fexp 53 1024 (Z.pos m) e l = (shr_record_of_loc (Z.pos m) l, e).
Proof.
  intros Hd He. unfold shr_fexp. cbn [Zdigits2]. rewrite Hd, fexp_normal by lia.
  replace (53 + e - 53 - e) with 0 by lia. reflexivity.
Qed.

Lemma binary_round_aux_normal (s : bool) (m : positive) (e : Z) :
  Z.pos (digits2_pos m) = 53 -> -1074 <= e <= 971 ->
  binary_round_aux 53 1024 s (Z.pos m) e loc_Exact = S754_finite s m e.
Proof.
  intros Hd He. unfold binary_round_aux.
  rewrite shr_fexp_normal by (assumption || lia).
  cbn [shr_record_of_loc shr_m loc_of_shr_record round_nearest_even].
  rewrite shr_fexp_normal by (assumption || lia).
  cbn [shr_record_of_loc shr_m].
  replace (e <=? 1024 - 53) with true by (symmetry; apply Z.leb_le; lia).
  reflexivity.
Qed.

Lemma binary_round_small (s : bool) (p : positive) :
  Z.pos p < 2 ^ 53 ->
  exists m e,
    binary_round 53 1024 s p 0 = S754_finite s m e
    /\ Z.pos m = Z.pos p * 2 ^ (- e) /\ -52 <= e <= 0
    /\ Z.pos (digits2_pos m) = 53.
Proof.
  intros Hp. pose proof (digits2_pos_bounds p) as [Blo Bhi].
  set (d := Z.pos (digits2_pos p)) in *.
  assert (Hd : 1 <= d <= 53).
  { split; [unfold d; lia|].
    destruct (Z.leb_spec d 53); [assumption|].
    assert (2 ^ 53 <= 2 ^ (d - 1)) by (apply Z.pow_le_mono_r; lia). lia. }
  unfold binary_round. rewrite Z.add_0_r. fold d. rewrite fexp_normal by lia.
  unfold shl_align. rewrite Z.sub_0_r.
  destruct (d - 53) as [|k|k] eqn:Ek; try lia.
  - exists p, 0. split; [|split; [cbn; lia|split; [lia|unfold d in *; lia]]].
    apply binary_round_aux_normal; [unfold d in *; lia|lia].
  - exists (Pos.iter xO p k), (Z.neg k).
    assert (Hm : Z.pos (Pos.iter xO p k) = Z.pos p * 2 ^ Z.pos k) by apply iter_xO.
    assert (Hdm : Z.pos (digits2_pos (Pos.iter xO p k)) = 53).
    { apply digits2_pos_unique. rewrite Hm.
      replace 53 with (d + Z.pos k) at 2 by lia.
      replace (53 - 1) with ((d - 1) + Z.pos k) by lia.
      rewrite !Z.pow_add_r by lia.
      assert (0 < 2 ^ Z.pos k) by (apply Z.pow_pos_nonneg; lia). nia. }
    split; [|split; [|split]].
    + apply binary_round_aux_normal; [exact Hdm|lia].
    + rewrite Hm. reflexivity.
    + lia.
    + exact Hdm.
Qed.

Lemma of_int_nonzero (n : Z) :
  n <> 0 -> Z.abs n < 2 ^ 53 ->
  exists m e,
    pyfloat.of_int n = S754_finite (n <? 0) m e
    /\ Z.pos m = Z.abs n * 2 ^ (- e) /\ -52 <= e <= 0
    /\ Z.pos (digits2_pos m) = 53.
Proof.
  intros Hn Hb. unfold pyfloat.of_int, binary_normalize.
  destruct n as [|p|p]; [contradiction| |].
  - apply (binary_round_small false p). exact Hb.
  - apply (binary_round_small true p). exact Hb.
Qed.

Lemma Zdigits2_pos (p : positive) : Zdigits2 (Z.pos p) = Z.pos (digits2_pos p).
Proof. reflexivity. Qed.

Lemma round_nearest_even_range (x : Z) (l : location) :
  x <= round_nearest_even x l <= x + 1.
Proof.
  unfold round_nearest_even. destruct l as [|[]]; try lia.
  destruct (Z.even x); lia.
Qed.

Lemma shr_1_m (m : Z) (r s : bool) :
  0 <= m -> shr_m (shr_1 (Build_shr_record m r s)) = m / 2.
Proof.
  intros Hm. rewrite <- Z.div2_div.
  destruct m as [|[p|p|]|p]; try lia; reflexivity.
Qed.

Lemma shr_record_of_loc_m (m : Z) (l : location) : shr_m (shr_record_of_loc m l) = m.
Proof. destruct l as [|[]]; reflexivity. Qed.

Lemma shr_record_eta (mrs : shr_record) :
  mrs = Build_shr_record (shr_m mrs) (shr_r mrs) (shr_s mrs).
Proof. destruct mrs. reflexivity. Qed.

(** The second rounding step of [binary_round_aux] on a mantissa of 53
    bits, or on [2^53]. *)
Lemma round_finish (s : bool) (x e : Z) :
  2 ^ 52 <= x <= 2 ^ 53 -> -1074 <= e <= 970 ->
  exists m k,
    (let '(mrs, e') := shr_fexp 53 1024 x e loc_Exact in
     match shr_m mrs with
     | Z0 => S754_zero s
     | Zpos m => if e' <=? 1024 - 53 then S754_finite s m e' else S754_infinity s
     | Zneg _ => S754_nan
     end) = S754_finite s m (e + k)
    /\ 0 <= k <= 1 /\ Z.pos m * 2 ^ k = x /\ Z.pos (digits2_pos m) = 53.
Proof.
  intros Hx He. destruct x as [|p|p]; try lia.
  destruct (Z.eq_dec (Z.pos p) (2 ^ 53)) as [E|E].
  - rewrite E. exists (2 ^ 52)%positive, 1.
    unfold shr_fexp. change (Zdigits2 (2 ^ 53)) with 54.
    rewrite fexp_normal by lia. replace (54 + e - 53 - e) with 1 by lia.
    change (shr (shr_record_of_loc (2 ^ 53) loc_Exact) e 1)
      with (Build_shr_record (2 ^ 52) false false, e + 1).
    cbn [shr_m]. change (2 ^ 52) with (Z.pos (2 ^ 52)) at 1. cbv iota beta.
    replace (e + 1 <=? 1024 - 53) with true by (symmetry; apply Z.leb_le; lia).
    repeat split; try lia; reflexivity.
  - assert (Hd : Z.pos (digits2_pos p) = 53) by (apply digits2_pos_unique; lia).
    exists p, 0. rewrite shr_fexp_normal by (assumption || lia).
    cbn [shr_record_of_loc shr_m].
    replace (e <=? 1024 - 53) with true by (symmetry; apply Z.leb_le; lia).
    rewrite Z.add_0_r. repeat split; try lia; try exact Hd.
Qed.

(** Rounding a quotient of 53 or 54 bits: the value of the result is within
    one unit of its last place of the quotient. *)
Lemma binary_round_aux_quotient (s : bool) (q e : Z) (l : location) :
  2 ^ 52 <= q < 2 ^ 54 -> -1074 <= e <= 900 ->
  exists m k,
    binary_round_aux 53 1024 s q e l = S754_finite s m (e + k)
    /\ 0 <= k <= 2
    /\ q + 1 - 2 ^ k <= Z.pos m * 2 ^ k <= q + 2 ^ k
    /\ Z.pos (digits2_pos m) = 53.
Proof.
  intros Hq He. destruct q as [|p|p]; try lia. unfold binary_round_aux.
  destruct (Z.ltb_spec (Z.pos p) (2 ^ 53)) as [Hlt|Hge].
  - (* 53 bits: no shift before rounding *)
    assert (Hd : Z.pos (digits2_pos p) = 53) by (apply digits2_pos_unique; lia).
    rewrite shr_fexp_normal by (assumption || lia).
    rewrite shr_record_of_loc_m.
    pose proof (round_nearest_even_range (Z.pos p)
                  (loc_of_shr_record (shr_record_of_loc (Z.pos p) l))) as Hr.
    set (x := round_nearest_even _ _) in *.
    destruct (round_finish s x e) as (m & k & Hres & Hk & Hm & Hdm); [lia|lia|].
    exists m, k. split; [exact Hres|]. split; [lia|]. split; [|exact Hdm].
    assert (k = 0 \/ k = 1) as [->| ->] by lia; cbn in *; lia.
  - (* 54 bits: one shift before rounding *)
    assert (Hd : Z.pos (digits2_pos p) = 54) by (apply digits2_pos_unique; lia).
    unfold shr_fexp at 1. rewrite Zdigits2_pos, Hd, fexp_normal by lia.
    replace (54 + e - 53 - e) with 1 by lia.
    cbn [shr].
    change (SpecFloat.iter_pos shr_1 1 (shr_record_of_loc (Z.pos p) l))
      with (shr_1 (shr_record_of_loc (Z.pos p) l)).
    rewrite (shr_record_eta (shr_record_of_loc (Z.pos p) l)), shr_record_of_loc_m.
    set (mrs := shr_1 _).
    assert (Hm' : shr_m mrs = Z.pos p / 2) by (apply shr_1_m; lia).
    pose proof (round_nearest_even_range (shr_m mrs) (loc_of_shr_record mrs)) as Hr.
    set (x := round_nearest_even _ _) in *.
    assert (Hdiv : 2 * (Z.pos p / 2) <= Z.pos p < 2 * (Z.pos p / 2) + 2).
    { pose proof (Z.div_mod (Z.pos p) 2 ltac:(lia)).
      pose proof (Z.mod_pos_bound (Z.pos p) 2 ltac:(lia)). lia. }
    destruct (round_finish s x (e + 1)) as (m & k & Hres & Hk & Hm & Hdm); [lia|lia|].
    exists m, (1 + k). replace (e + (1 + k)) with (e + 1 + k) by lia.
    split; [exact Hres|]. split; [lia|]. split; [|exact Hdm].
    assert (k = 0 \/ k = 1) as [->| ->] by lia; cbn in *; lia.
Qed.

(** The quotient of two normal binary64 values with small exponents: a
    normal value within one unit of its last place of the exact quotient. *)
Lemma div_normal (s1 s2 : bool) (m1 m2 : positive) (e1 e2 : Z) :
  Z.pos (digits2_pos m1) = 53 -> Z.pos (digits2_pos m2) = 53 ->
  -52 <= e1 <= 0 -> -52 <= e2 <= 0 ->
  exists m k,
    pyfloat.div (S754_finite s1 m1 e1) (S754_finite s2 m2 e2)
    = S754_finite (xorb s1 s2) m (e1 - e2 - 53 + k)
    /\ 0 <= k <= 2
    /\ Z.abs (Z.pos m * 2 ^ k * Z.pos m2 - Z.pos m1 * 2 ^ 53) <= 2 ^ k * Z.pos m2
    /\ Z.pos (digits2_pos m) = 53.
Proof.
  intros Hd1 Hd2 He1 He2.
  pose proof (digits2_pos_bounds m1) as B1. pose proof (digits2_pos_bounds m2) as B2.
  rewrite Hd1 in B1. rewrite Hd2 in B2.
  unfold pyfloat.div, SFdiv, SFdiv_core_binary.
  rewrite !Zdigits2_pos, Hd1, Hd2.
  unfold pyfloat.prec, pyfloat.emax. rewrite fexp_normal by lia.
  replace (Z.min (53 + e1 - (53 + e2) - 53) (e1 - e2)) with (e1 - e2 - 53) by lia.
  replace (e1 - e2 - (e1 - e2 - 53)) with 53 by lia.
  rewrite Z.shiftl_mul_pow2 by lia.
  pose proof (Z_div_mod (Z.pos m1 * 2 ^ 53) (Z.pos m2) ltac:(lia)) as Hdm.
  destruct (Z.div_eucl (Z.pos m1 * 2 ^ 53) (Z.pos m2)) as [q r].
  destruct Hdm as [Hq Hr].
  assert (Hqb : 2 ^ 52 <= q < 2 ^ 54).
  { change (2 ^ (53 - 1)) with (2 ^ 52) in *. split.
    - assert (2 ^ 52 * Z.pos m2 < (q + 1) * Z.pos m2) by nia. nia.
    - assert (q * Z.pos m2 < 2 ^ 54 * Z.pos m2) by nia. nia. }
  destruct (binary_round_aux_quotient (xorb s1 s2) q (e1 - e2 - 53)
              (new_location (Z.pos m2) r))
    as (m & k & Hres & Hk & Hm & Hdig); [lia|lia|].
  exists m, k. split; [exact Hres|]. split; [exact Hk|]. split; [|exact Hdig].
  assert (0 < 2 ^ k) by (apply Z.pow_pos_nonneg; lia).
  apply Z.abs_le. nia.
Qed.

Lemma round_half_even_accuracy (n d : Z) :
  0 <= n -> 0 < d -> 2 * Z.abs (pyfloat.round_half_even n d * d - n) <= d.
Proof.
  intros Hn Hd. unfold pyfloat.round_half_even.
  pose proof (Z.div_mod n d ltac:(lia)) as Hdm.
  pose proof (Z.mod_pos_bound n d Hd) as Hr.
  set (q := n / d) in *. set (r := n mod d) in *. clearbody q r. subst n.
  assert (E0 : q * d - (d * q + r) = - r) by ring.
  assert (E1 : (q + 1) * d - (d * q + r) = d - r) by ring.
  destruct (Z.compare_spec (2 * r) d) as [E|L|G].
  - destruct (Z.even q); rewrite ?E0, ?E1; lia.
  - rewrite E0. lia.
  - rewrite E1. lia.
Qed.

(** The mean computed in binary64, for a sum [s] of [n] 32-bit integers:
    zero, or a normal value of exponent at most -21 within one unit of its
    last place of [s / n]. *)
Lemma mean_accuracy (s n : Z) :
  0 < n < 2 ^ 22 -> Z.abs s <= n * 2 ^ 31 ->
  (s = 0 /\ pyfloat.div (pyfloat.of_int s) (pyfloat.of_int n) = S754_zero false)
  \/ exists m e,
       pyfloat.div (pyfloat.of_int s) (pyfloat.of_int n) = S754_finite (s <? 0) m e
       /\ e <= -21
       /\ Z.abs (Z.pos m * n - Z.abs s * 2 ^ (- e)) <= n.
Proof.
  intros Hn Hs.
  assert (Hn53 : Z.abs n < 2 ^ 53).
  { assert (2 ^ 22 < 2 ^ 53) by reflexivity. lia. }
  assert (Hs53 : Z.abs s < 2 ^ 53).
  { assert (2 ^ 22 * 2 ^ 31 = 2 ^ 53) by reflexivity.
    assert (0 < 2 ^ 31) by reflexivity. nia. }
  destruct (of_int_nonzero n) as (mn & en & Hn_eq & Hmn & Hen & Hdn); [lia|lia|].
  replace (n <? 0) with false in Hn_eq by (symmetry; apply Z.ltb_ge; lia).
  rewrite Z.abs_eq in Hmn by lia.
  destruct (Z.eq_dec s 0) as [->|Hs0].
  - left. split; [reflexivity|]. rewrite Hn_eq. reflexivity.
  - right.
    destruct (of_int_nonzero s) as (ms & es & Hs_eq & Hms & Hes & Hds); [lia|lia|].
    rewrite Hs_eq, Hn_eq.
    destruct (div_normal (s <? 0) false ms mn es en Hds Hdn Hes Hen)
      as (m & k & Hres & Hk & Hacc & Hdm).
    rewrite xorb_false_r in Hres.
    exists m, (es - en - 53 + k). split; [exact Hres|].
    pose proof (digits2_pos_bounds m) as Bm. rewrite Hdm in Bm.
    change (2 ^ (53 - 1)) with (2 ^ 52) in Bm.
    set (u := k - en). set (v := - es).
    assert (Hu : 0 <= u <= 54) by (unfold u; lia).
    assert (Hv : 0 <= v <= 52) by (unfold v; lia).
    assert (Hpu : 2 ^ k * 2 ^ (- en) = 2 ^ u)
      by (unfold u; rewrite <- Z.pow_add_r by lia; f_equal; lia).
    fold v in Hms.
    assert (Pu : 0 < 2 ^ u) by (apply Z.pow_pos_nonneg; lia).
    assert (Pv : 0 < 2 ^ v) by (apply Z.pow_pos_nonneg; lia).
    (* the accuracy in terms of [n] and [s] *)
    assert (Hacc' : Z.abs (Z.pos m * n * 2 ^ u - Z.abs s * 2 ^ v * 2 ^ 53) <= n * 2 ^ u).
    { replace (Z.pos m * n * 2 ^ u) with (Z.pos m * 2 ^ k * Z.pos mn)
        by (rewrite Hmn, <- Hpu; ring).
      replace (n * 2 ^ u) with (2 ^ k * Z.pos mn) by (rewrite Hmn, <- Hpu; ring).
      rewrite <- Hms. exact Hacc. }
    (* the exponent *)
    assert (Huv : u <= v + 32).
    { destruct (Z.leb_spec u (v + 32)) as [|Hgt]; [assumption|exfalso].
      assert (2 ^ (v + 33) <= 2 ^ u) by (apply Z.pow_le_mono_r; lia).
      rewrite Z.pow_add_r in H by lia.
      apply Z.abs_le in Hacc'. nia. }
    split; [unfold u, v in *; lia|].
    replace (- (es - en - 53 + k)) with (v + 53 - u) by (unfold u, v; lia).
    assert (Hsplit : 2 ^ v * 2 ^ 53 = 2 ^ (v + 53 - u) * 2 ^ u).
    { rewrite <- !Z.pow_add_r by lia. f_equal. lia. }
    replace (Z.abs s * 2 ^ v * 2 ^ 53) with (Z.abs s * 2 ^ (v + 53 - u) * 2 ^ u) in Hacc'
      by (rewrite <- Z.mul_assoc, <- Hsplit; ring).
    rewrite <- Z.mul_sub_distr_r, Z.abs_mul, (Z.abs_eq (2 ^ u)) in Hacc' by lia.
    apply Z.mul_le_mono_pos_r in Hacc'; assumption.
Qed.

Lemma format_mean (s n : Z) :
  0 < n < 2 ^ 22 -> Z.abs s <= n * 2 ^ 31 ->
  renders_mean s n (pyfloat.format_1f (pyfloat.div (pyfloat.of_int s) (pyfloat.of_int n))).
Proof.
  intros Hn Hs. destruct (mean_accuracy s n Hn Hs) as [[-> ->]|(m & e & -> & He & Hacc)].
  - split; [apply format_1f_one_decimal; reflexivity|].
    exists 0. cbn [pyfloat.format_1f]. repeat split; lia.
  - split; [apply format_1f_one_decimal; reflexivity|].
    exists (pyfloat.tenths m e). cbn [pyfloat.format_1f].
    split; [reflexivity|]. split; [apply tenths_nonneg|].
    destruct e as [|k|k]; try lia.
    change (- Z.neg k) with (Z.pos k) in Hacc. unfold pyfloat.tenths.
    set (D := 2 ^ Z.pos k) in *.
    assert (HD : 2 ^ 21 <= D) by (apply Z.pow_le_mono_r; lia).
    pose proof (round_half_even_accuracy (Z.pos m * 10) D ltac:(lia) ltac:(lia)) as Ht.
    set (t := pyfloat.round_half_even (Z.pos m * 10) D) in *. clearbody t D.
    set (a := Z.abs (t * D - Z.pos m * 10)) in *.
    set (b := Z.abs (Z.pos m * n - Z.abs s * D)) in *.
    set (X := Z.abs (t * n - 10 * Z.abs s)).
    assert (HX : D * X <= a * n + 10 * b).
    { unfold X, a, b.
      rewrite <- (Z.abs_eq D) at 1 by lia. rewrite <- Z.abs_mul.
      replace (D * (t * n - 10 * Z.abs s))
        with ((t * D - Z.pos m * 10) * n + 10 * (Z.pos m * n - Z.abs s * D)) by ring.
      etransitivity; [apply Z.abs_triangle|].
      rewrite !Z.abs_mul, (Z.abs_eq n), (Z.abs_eq 10) by lia. reflexivity. }
    assert (Han : 2 * (a * n) <= D * n).
    { rewrite Z.mul_assoc. apply Z.mul_le_mono_nonneg_r; lia. }
    assert (Hcomb : 2 * (D * X) <= (D + 20) * n) by lia.
    assert (0 <= X) by apply Z.abs_nonneg.
    set (c := 2 ^ 21) in *. change (2 ^ 22) with (2 * c).
    assert (Hc : 0 < c) by reflexivity. clearbody c.
    assert (H1 : c * (2 * (D * X)) <= c * ((D + 20) * n))
      by (apply Z.mul_le_mono_nonneg_l; lia).
    assert (H2 : c * (20 * n) <= D * (20 * n))
      by (apply Z.mul_le_mono_nonneg_r; lia).
    apply (Z.mul_le_mono_pos_l _ _ D); lia.
Qed.

Lemma column_sum_bound (f : Reading -> Z) (rows : list Reading) :
  Forall (fun r => int32 (f r)) rows ->
  Z.abs (column_sum f rows) <= Z.of_nat (length rows) * 2 ^ 31.
Proof.
  unfold column_sum, int32. induction 1 as [|r rows Hr Hrows IH].
  - cbn. lia.
  - cbn [List.map np.sum_list length]. rewrite Nat2Z.inj_succ.
    assert (2 ^ 31 = 2147483648) by reflexivity. lia.
Qed.

Lemma mean_of_column (f : Reading -> Z) (data : np.ndarray Reading) :
  np.mean (np.map f data)
  = pyfloat.div (pyfloat.of_int (column_sum f (np.items data)))
                (pyfloat.of_int (Z.of_nat (length (np.items data)))).
Proof.
  unfold np.mean, column_sum. destruct data as [x|l]; cbn [np.map np.items].
  - reflexivity.
  - rewrite length_map. reflexivity.
Qed.

Lemma mean_rendered (f : Reading -> Z) (data : np.ndarray Reading) :
  np.items data <> [] ->
  Forall (fun r => int32 (f r)) (np.items data) ->
  Z.of_nat (length (np.items data)) < 2 ^ 22 ->
  renders_mean (column_sum f (np.items data)) (Z.of_nat (length (np.items data)))
    (pyfloat.format_1f (np.mean (np.map f data))).
Proof.
  intros Hne Hf Hn. rewrite mean_of_column. apply format_mean.
  - split; [|exact Hn]. destruct (np.items data); [contradiction|cbn; lia].
  - apply column_sum_bound, Hf.
Qed.

(** On a table with at least one row and fewer than [2^22] rows, each of
    the three averages of [calculate_statistics] is a numeral with exactly
    one digit after the point, and its value is the mean of the column
    rounded to one decimal: it differs from the exact mean by at most
    [0.05 + 2^-21]. *)
Theorem calculate_statistics_means (data : np.ndarray Reading) :
  let rows := np.items data in
  let n := Z.of_nat (length rows) in
  rows <> [] -> Forall Reading_ok rows -> n < 2 ^ 22 ->
  exists avg_hr avg_bp avg_gl,
    calculate_statistics data
    = <["avg_heart_rate" := avg_hr]>
        (<["avg_systolic_bp" := avg_bp]> (<["avg_glucose" := avg_gl]> ∅))
    /\ renders_mean (column_sum heart_rate rows) n avg_hr
    /\ renders_mean (column_sum blood_pressure_systolic rows) n avg_bp
    /\ renders_mean (column_sum glucose_level rows) n avg_gl.
Proof.
  intros rows n Hne Hok Hn. do 3 eexists. split; [reflexivity|].
  repeat split; apply mean_rendered; try assumption;
    (eapply Forall_impl; [exact Hok|]); intros r (H1 & H2 & H3 & H4); assumption.
Qed.

Lemma calculate_statistics_means_witness :
  exists avg_hr avg_bp avg_gl,
    calculate_statistics (np.Vector [reading 95 120 100; reading 80 140 120])
    = <["avg_heart_rate" := avg_hr]>
        (<["avg_systolic_bp" := avg_bp]> (<["avg_glucose" := avg_gl]> ∅))
    /\ renders_mean (column_sum heart_rate [reading 95 120 100; reading 80 140 120])
         2 avg_hr
    /\ renders_mean
         (column_sum blood_pressure_systolic [reading 95 120 100; reading 80 140 120])
         2 avg_bp
    /\ renders_mean (column_sum glucose_level [reading 95 120 100; reading 80 140 120])
         2 avg_gl.
Proof.
  apply (calculate_statistics_means
           (np.Vector [reading 95 120 100; reading 80 140 120])).
  - discriminate.
  - repeat constructor; vm_compute; intros; discriminate.
  - reflexivity.
Defined.

(** When ten times the exact mean is an integer [q], the average printed is
    exactly the mean: the numeral of [|q|] tenths with the sign of the
    sum. *)
Lemma renders_mean_exact (s n q : Z) (text : string) :
  0 < n -> 10 * Z.abs s = n * q -> renders_mean s n text ->
  text = pyfloat.fixed1 (s <? 0) q.
Proof.
  intros Hn Hq (_ & t & -> & Ht & Hacc). f_equal.
  rewrite Hq in Hacc.
  replace (t * n - n * q) with ((t - q) * n) in Hacc by ring.
  rewrite Z.abs_mul, (Z.abs_eq n) in Hacc by lia.
  assert (H22 : 2 ^ 22 = 2 * 2 ^ 21) by reflexivity.
  assert (H21 : 20 < 2 ^ 21) by reflexivity.
  destruct (Z.eq_dec t q) as [E|E]; [exact E|exfalso].
  assert (1 <= Z.abs (t - q)) by lia.
  assert (1 * n <= Z.abs (t - q) * n) by (apply Z.mul_le_mono_nonneg_r; lia).
  lia.
Qed.

(** The averages of a table whose column sums are multiples of a tenth of
    the number of rows are printed exactly; so heart rates 95 and 80 give
    87.5. *)
Theorem calculate_statistics_exact (data : np.ndarray Reading) (q : Z) :
  let rows := np.items data in
  let n := Z.of_nat (length rows) in
  rows <> [] -> Forall Reading_ok rows -> n < 2 ^ 22 ->
  10 * Z.abs (column_sum heart_rate rows) = n * q ->
  calculate_statistics data !! "avg_heart_rate"
  = Some (pyfloat.fixed1 (column_sum heart_rate rows <? 0) q).
Proof.
  intros rows n Hne Hok Hn Hq. unfold calculate_statistics.
  rewrite lookup_insert_eq. f_equal.
  apply (renders_mean_exact _ n).
  - subst n. destruct rows; [contradiction|cbn; lia].
  - exact Hq.
  - apply mean_rendered; try assumption.
    eapply Forall_impl; [exact Hok|]. intros r (H1 & _). exact H1.
Qed.

Lemma calculate_statistics_exact_witness :
  calculate_statistics (np.Vector [reading 95 120 100; reading 80 140 120])
    !! "avg_heart_rate"
  = Some "87.5".
Proof.
  apply (calculate_statistics_exact
           (np.Vector [reading 95 120 100; reading 80 140 120]) 875).
  - discriminate.
  - repeat constructor; vm_compute; intros; discriminate.
  - reflexivity.
  - reflexivity.
Defined.



(** ** The whole run *)

Lemma report_of_rows (content : string) (rows : list Reading) :
  np.parse content = Ok (np.Vector rows) -> report_of content = Ok (report_for rows).
Proof.
  intros Hp. unfold report_of, report_for. rewrite Hp. cbn [rbind np.len].
  apply generate_report_ok; try reflexivity;
    unfold find_abnormal_readings; rewrite !sum_bool_exceeding; reflexivity.
Qed.





(** An input without rows of values (an empty file, a header alone, or
    only blank and comment lines after the header) gives the report with
    total 0, the three averages [nan] and the three counts 0. *)
Theorem report_of_no_rows (content : string) :
  np.value_rows content = [] ->
  report_of content = Ok (report_template 0 "nan" "nan" "nan" 0 0 0).
Proof.
  intros Hrows. apply (report_of_rows content []).
  unfold np.parse. rewrite Hrows. reflexivity.
Qed.

Lemma report_of_no_rows_witness :
  report_of "" = Ok (report_template 0 "nan" "nan" "nan" 0 0 0)
  /\ report_of ("patient_id,timestamp" ++ NL ++ "# no data yet" ++ NL ++ "   " ++ NL)
     = Ok (report_template 0 "nan" "nan" "nan" 0 0 0).
Proof.
  split; apply report_of_no_rows; reflexivity.
Defined.



(** ** Missing entries of the mappings *)

Lemma getitem_None {V} (d : gmap string V) (key : string) :
  d !! key = None -> getitem d key = Raise (KeyError key).
Proof. intros H. unfold getitem. rewrite H. reflexivity. Qed.

(** [generate_report] either returns the template filled with the six
    entries it reads, or raises the KeyError of an entry that is missing;
    it raises nothing else, and entries under other keys play no part. *)
Theorem generate_report_total_or_key_error
    (stats : gmap string string) (abnormal : gmap string Z) (total : Z) :
  match generate_report stats abnormal total with
  | Ok report =>
      exists avg_hr avg_bp avg_gl high_hr high_bp high_gl,
        stats !! "avg_heart_rate" = Some avg_hr
        /\ stats !! "avg_systolic_bp" = Some avg_bp
        /\ stats !! "avg_glucose" = Some avg_gl
        /\ abnormal !! "high_heart_rate" = Some high_hr
        /\ abnormal !! "high_blood_pressure" = Some high_bp
        /\ abnormal !! "high_glucose" = Some high_gl
        /\ report = report_template total avg_hr avg_bp avg_gl high_hr high_bp high_gl
  | Raise e =>
      exists key,
        e = KeyError key
        /\ ((key ∈ ["avg_heart_rate"; "avg_systolic_bp"; "avg_glucose"]
             /\ stats !! key = None)
            \/ (key ∈ ["high_heart_rate"; "high_blood_pressure"; "high_glucose"]
                /\ abnormal !! key = None))
  end.
Proof.
  unfold generate_report, getitem.
  destruct (stats !! "avg_heart_rate") as [a1|] eqn:E1; cbn [rbind];
    [|exists "avg_heart_rate"; split; [reflexivity|left; split; [set_solver|exact E1]]].
  destruct (stats !! "avg_systolic_bp") as [a2|] eqn:E2; cbn [rbind];
    [|exists "avg_systolic_bp"; split; [reflexivity|left; split; [set_solver|exact E2]]].
  destruct (stats !! "avg_glucose") as [a3|] eqn:E3; cbn [rbind];
    [|exists "avg_glucose"; split; [reflexivity|left; split; [set_solver|exact E3]]].
  destruct (abnormal !! "high_heart_rate") as [c1|] eqn:E4; cbn [rbind];
    [|exists "high_heart_rate"; split; [reflexivity|right; split; [set_solver|exact E4]]].
  destruct (abnormal !! "high_blood_pressure") as [c2|] eqn:E5; cbn [rbind];
    [|exists "high_blood_pressure"; split;
      [reflexivity|right; split; [set_solver|exact E5]]].
  destruct (abnormal !! "high_glucose") as [c3|] eqn:E6; cbn [rbind];
    [|exists "high_glucose"; split; [reflexivity|right; split; [set_solver|exact E6]]].
  exists a1, a2, a3, c1, c2, c3. repeat split; reflexivity.
Qed.

(** The first entry read that is missing is the one reported: without
    average heart rate the KeyError names it, whatever else is missing. *)
Theorem generate_report_first_missing
    (stats : gmap string string) (abnormal : gmap string Z) (total : Z) :
  stats !! "avg_heart_rate" = None ->
  generate_report stats abnormal total = Raise (KeyError "avg_heart_rate").
Proof.
  intros H. unfold generate_report. rewrite (getitem_None _ _ H). reflexivity.
Qed.

Lemma generate_report_first_missing_witness :
  generate_report ∅ ∅ 3 = Raise (KeyError "avg_heart_rate").
Proof. apply generate_report_first_missing. reflexivity. Defined.

(** ** Counting over parts of a table *)

Lemma count_exceeding_app (f : Reading -> Z) (k : Z) (l1 l2 : list Reading) :
  count_exceeding f k (l1 ++ l2) = count_exceeding f k l1 + count_exceeding f k l2.
Proof. unfold count_exceeding. rewrite filter_app, length_app. lia. Qed.

Lemma count_exceeding_perm (f : Reading -> Z) (k : Z) (l1 l2 : list Reading) :
  l1 ≡ₚ l2 -> count_exceeding f k l1 = count_exceeding f k l2.
Proof. intros H. unfold count_exceeding. rewrite H. reflexivity. Qed.

Lemma find_abnormal_readings_eq (data : np.ndarray Reading) :
  find_abnormal_readings data
  = <["high_heart_rate" := count_exceeding heart_rate 90 (np.items data)]>
      (<["high_blood_pressure" :=
           count_exceeding blood_pressure_systolic 130 (np.items data)]>
      (<["high_glucose" := count_exceeding glucose_level 110 (np.items data)]> ∅)).
Proof. unfold find_abnormal_readings. rewrite !sum_bool_exceeding. reflexivity. Qed.

(** The counts of a table made of two parts are the sums of the counts of
    the parts, key by key, and the counts do not depend on the order of
    the rows. *)
Theorem find_abnormal_readings_parts (l1 l2 : list Reading) (key : string) :
  find_abnormal_readings (np.Vector (l1 ++ l2)) !! key
  = union_with (fun a b => Some (a + b))
      (find_abnormal_readings (np.Vector l1) !! key)
      (find_abnormal_readings (np.Vector l2) !! key)
  /\ (forall l3, l1 ≡ₚ l3 ->
        find_abnormal_readings (np.Vector l1) = find_abnormal_readings (np.Vector l3)).
Proof.
  split.
  - rewrite !find_abnormal_readings_eq. cbn [np.items].
    rewrite !count_exceeding_app.
    destruct (decide (key = "high_heart_rate")) as [->|N1];
      [rewrite !lookup_insert_eq; reflexivity|].
    rewrite !(lookup_insert_ne _ "high_heart_rate") by congruence.
    destruct (decide (key = "high_blood_pressure")) as [->|N2];
      [rewrite !lookup_insert_eq; reflexivity|].
    rewrite !(lookup_insert_ne _ "high_blood_pressure") by congruence.
    destruct (decide (key = "high_glucose")) as [->|N3];
      [rewrite !lookup_insert_eq; reflexivity|].
    rewrite !(lookup_insert_ne _ "high_glucose") by congruence.
    rewrite !lookup_empty. reflexivity.
  - intros l3 Hp. rewrite !find_abnormal_readings_eq. cbn [np.items].
    rewrite !(count_exceeding_perm _ _ l1 l3 Hp). reflexivity.
Qed.

Lemma find_abnormal_readings_parts_witness :
  find_abnormal_readings (np.Vector [reading 95 120 100; reading 80 140 120])
  = find_abnormal_readings (np.Vector [reading 80 140 120; reading 95 120 100]).
Proof.
  apply (find_abnormal_readings_parts
           [reading 95 120 100; reading 80 140 120] [] "high_heart_rate").
  apply perm_swap.
Defined.

(** ** What the run leaves alone *)

(** [load_data] only reads: whatever it returns or raises, for whatever
    path, the world after it is the world before it. *)
Theorem load_data_reads_only (path : string) (w w' : world)
    (r : result (np.ndarray Reading)) :
  load_data path w = (r, w') -> w' = w.
Proof. apply load_data_world. Qed.

Lemma load_data_reads_only_witness :
  snd (load_data input_path (world_with_input malformed_csv))
  = world_with_input malformed_csv.
Proof.
  apply (load_data_reads_only input_path _ _
           (fst (load_data input_path (world_with_input malformed_csv)))).
  apply surjective_pairing.
Defined.

Lemma mkdir_error_world (name : string) (w w' : world) (e : exn) :
  os.mkdir name w = (Raise e, w') -> w' = w.
Proof.
  unfold os.mkdir. destruct (fstree.resolve w name) as [p|e0];
    [|intros H; inversion H; reflexivity].
  destruct (fstree.lookup (root w) p); [intros H; inversion H; reflexivity|].
  destruct (fstree.lookup (root w) (fstree.parent p)) as [[rd wr t|[] ents]|];
    intros H; inversion H; reflexivity.
Qed.

Lemma write_text_error_world (filename text : string) (w w' : world) (e : exn) :
  write_text filename text w = (Raise e, w') -> w' = w.
Proof.
  unfold write_text. destruct (fstree.resolve w filename) as [p|e0];
    [|intros H; inversion H; reflexivity].
  destruct (fstree.lookup (root w) p) as [[rd [] t|wr ents]|];
    try (intros H; inversion H; reflexivity).
  destruct (fstree.lookup (root w) (fstree.parent p)) as [[rd wr t|[] ents]|];
    intros H; inversion H; reflexivity.
Qed.

(** Whatever [mkdir] with [exist_ok] returns, the world has only grown
    along the path. *)
Lemma mkdir_exist_ok_grows (w w1 : world) (ds : list string) (d : string)
    (r : result unit) :
  Forall plain_name (ds ++ [d]) ->
  os.mkdir_exist_ok (pystr.join "/" (ds ++ [d])) w = (r, w1) ->
  grows_along (cwd w ++ ds ++ [d]) w w1.
Proof.
  intros Hp Hrun.
  assert (Hcase : w1 = w \/ r = Ok tt).
  { unfold os.mkdir_exist_ok in Hrun.
    destruct (os.mkdir (pystr.join "/" (ds ++ [d])) w) as [[[]|e] w0] eqn:E.
    - right. congruence.
    - apply mkdir_error_world in E. subst w0. left.
      destruct (os.path.isdir _ w); congruence. }
  destruct Hcase as [->| ->]; [apply grows_along_refl|].
  apply (mkdir_exist_ok_inv w ds d Hp w1 Hrun).
Qed.

Lemma text_at_same (w w1 : world) (ds : list string) (d : string) :
  Forall plain_name (ds ++ [d]) ->
  cwd w1 = cwd w ->
  fstree.lookup (root w1) (cwd w ++ ds ++ [d]) = fstree.lookup (root w) (cwd w ++ ds ++ [d]) ->
  text_at (pystr.join "/" (ds ++ [d])) w1 = text_at (pystr.join "/" (ds ++ [d])) w.
Proof.
  intros Hp Hc Hl.
  destruct (text_at (pystr.join "/" (ds ++ [d])) w) as [c|] eqn:E.
  - apply (text_at_join w1 ds d Hp). apply (text_at_join w ds d Hp) in E.
    unfold file_content in *. rewrite Hc, Hl. exact E.
  - destruct (text_at (pystr.join "/" (ds ++ [d])) w1) as [c|] eqn:E1; [|reflexivity].
    apply (text_at_join w1 ds d Hp) in E1. unfold file_content in E1.
    rewrite Hc, Hl in E1. apply (text_at_join w ds d Hp) in E1. congruence.
Qed.

(** [main] never changes its input file, whatever the outcome, and it
    prints its line exactly when it succeeded: after a failure the
    standard output is as it was. *)
Theorem main_keeps_input (w w' : world) (r : result unit) :
  main w = (r, w') ->
  text_at input_path w' = text_at input_path w
  /\ cwd w' = cwd w
  /\ stdout w' = match r with
                 | Ok _ => stdout w ++ [success_message]
                 | Raise _ => stdout w
                 end.
Proof.
  intros Hmain. unfold main, save_report, print in Hmain.
  repeat unfold bind, lift, ret in Hmain.
  change (os.path.dirname "output/analysis_report.txt") with "output" in Hmain.
  change (os.makedirs "output") with (os.mkdir_exist_ok "output") in Hmain.
  destruct (load_data "health_data.csv" w) as [[data|e] w0] eqn:El;
    apply load_data_world in El; subst w0;
    [|inversion Hmain; subst; auto].
  destruct (np.len data) as [total|e]; [|inversion Hmain; subst; auto].
  destruct (generate_report _ _ total) as [report|e]; [|inversion Hmain; subst; auto].
  destruct (os.mkdir_exist_ok "output" w) as [r1 w1] eqn:Em.
  pose proof (mkdir_exist_ok_grows w w1 [] "output" r1 output_dir_plain Em)
    as (Hc1 & Ho1 & Hf1 & _).
  assert (Hin1 : text_at input_path w1 = text_at input_path w).
  { apply (text_at_same w w1 [] "health_data.csv" input_plain Hc1).
    apply Hf1. cbn [app].
    apply (not_prefix_sibling (cwd w) "health_data.csv" "output" []). discriminate. }
  destruct r1 as [[]|e]; [|inversion Hmain; subst; auto].
  destruct (write_text "output/analysis_report.txt" report w1) as [[[]|e] w2] eqn:Ew.
  - destruct (write_text_inv w1 ["output"] "analysis_report.txt" output_plain report w2 Ew)
      as (rd & -> & _ & _).
    inversion Hmain; subst. cbn [root cwd stdout decompress fstree.set_root].
    split; [|split; [exact Hc1|rewrite Ho1; reflexivity]].
    rewrite <- Hin1.
    apply (text_at_same w1 _ [] "health_data.csv" input_plain);
      cbn [root cwd app]; [reflexivity|].
    destruct (not_prefix_sibling (cwd w1) "health_data.csv" "output"
                ["analysis_report.txt"] ltac:(discriminate)) as [N1 N2].
    apply lookup_update_other; assumption.
  - apply write_text_error_world in Ew. subst w2. inversion Hmain; subst. auto.
Qed.

Lemma main_keeps_input_witness :
  text_at input_path (snd (main (world_with_input sample_csv)))
  = text_at input_path (world_with_input sample_csv)
  /\ cwd (snd (main (world_with_input sample_csv))) = cwd (world_with_input sample_csv)
  /\ stdout (snd (main (world_with_input sample_csv)))
     = match fst (main (world_with_input sample_csv)) with
       | Ok _ => stdout (world_with_input sample_csv) ++ [success_message]
       | Raise _ => stdout (world_with_input sample_csv)
       end.
Proof.
  apply (main_keeps_input (world_with_input sample_csv)). apply surjective_pairing.
Defined.

(** ** What a successful [save_report] has done *)

(** Whatever [os.makedirs] returns on a relative path of plain names, the
    world has only grown along the path; when it returns normally the path
    names a directory. *)
Lemma makedirs_rec_grows (ds : list string) :
  ds <> [] -> Forall plain_name ds ->
  forall (fuel : nat) (w w1 : world) (r : result unit),
    os.makedirs_rec fuel (pystr.join "/" ds) w = (r, w1) ->
    grows_along (cwd w ++ ds) w w1
    /\ (r = Ok tt -> is_dir (fstree.lookup (root w1) (cwd w ++ ds))).
Proof.
  induction ds as [|d ds IH] using rev_ind; [contradiction|].
  intros _ Hp fuel w w1 r Hrun.
  assert (Hd : plain_name d) by (apply Forall_app in Hp as [_ H]; inversion H; assumption).
  assert (Hds : Forall plain_name ds) by (apply Forall_app in Hp as [H _]; exact H).
  destruct fuel as [|fuel].
  { cbn in Hrun. inversion Hrun; subst. split; [apply grows_along_refl|discriminate]. }
  assert (Hlast : forall w0 r0 w2,
            os.mkdir_exist_ok (pystr.join "/" (ds ++ [d])) w0 = (r0, w2) ->
            grows_along (cwd w0 ++ ds ++ [d]) w0 w2
            /\ (r0 = Ok tt -> is_dir (fstree.lookup (root w2) (cwd w0 ++ ds ++ [d])))).
  { intros w0 r0 w2 H0. split; [apply (mkdir_exist_ok_grows w0 w2 ds d r0 Hp H0)|].
    intros ->. apply (mkdir_exist_ok_inv w0 ds d Hp w2 H0). }
  cbn [os.makedirs_rec] in Hrun.
  destruct (decide (ds = [])) as [->|Hne].
  - cbn [app pystr.join] in *.
    rewrite path_split_bare in Hrun by apply plain_name_bare, Hd.
    cbv beta iota zeta in Hrun.
    rewrite (plain_name_not_empty d Hd) in Hrun. cbv beta iota zeta in Hrun.
    rewrite (bool_decide_eq_true_2 ("" = "") eq_refl) in Hrun. cbn [negb andb] in Hrun.
    apply (Hlast w r w1 Hrun).
  - rewrite path_split_join in Hrun by assumption. cbv beta iota zeta in Hrun.
    rewrite (plain_name_not_empty d Hd) in Hrun. cbv beta iota zeta in Hrun.
    rewrite (plain_name_not_empty d Hd), (plain_name_not_dot d Hd) in Hrun.
    rewrite (bool_decide_eq_false_2 _ (join_not_empty ds Hne Hds)) in Hrun.
    cbn [negb andb] in Hrun.
    destruct (os.path.exists_ (pystr.join "/" ds) w); cbn [negb] in Hrun.
    + apply (Hlast w r w1 Hrun).
    + destruct (os.makedirs_rec fuel (pystr.join "/" ds) w) as [r0 w0] eqn:E0.
      destruct (IH Hne Hds fuel w w0 r0 E0) as [Hg0 _].
      pose proof Hg0 as (Hc0 & _).
      assert (Hcont : os.mkdir_exist_ok (pystr.join "/" (ds ++ [d])) w0 = (r, w1)
                      \/ (r, w1) = (r0, w0) /\ r <> Ok tt).
      { destruct r0 as [[]|e]; [left; exact Hrun|].
        destruct e; try (right; split; [congruence|inversion Hrun; discriminate]).
        left. exact Hrun. }
      destruct Hcont as [Hm|[Heq Hnot]].
      * destruct (Hlast w0 r w1 Hm) as [Hg1 Hd1]. rewrite Hc0 in *.
        split; [|exact Hd1].
        apply (grows_along_trans _ w w0 w1); [|exact Hg1].
        rewrite (app_assoc (cwd w)). apply grows_along_longer, Hg0.
      * injection Heq as -> ->. split; [|intros; contradiction].
        rewrite (app_assoc (cwd w)). apply grows_along_longer, Hg0.
Qed.

(** Whenever [save_report] returns normally on a relative destination of
    plain names with at least one directory, the destination then holds
    exactly the report, every directory of the path exists, the paths
    beside the destination name what they named, and the working directory
    and the standard output are the same. *)
Theorem save_report_success
    (report : string) (dirs : list string) (name : string) (w w' : world) :
  dirs <> [] -> Forall plain_name dirs -> plain_name name ->
  save_report report (pystr.join "/" (dirs ++ [name])) w = (Ok tt, w') ->
  text_at (pystr.join "/" (dirs ++ [name])) w' = Some report
  /\ (forall pre, pre `prefix_of` dirs ->
        is_dir (fstree.lookup (root w') (cwd w ++ pre)))
  /\ (forall q, ~ q `prefix_of` (cwd w ++ dirs ++ [name]) ->
        ~ (cwd w ++ dirs ++ [name]) `prefix_of` q ->
        fstree.lookup (root w') q = fstree.lookup (root w) q)
  /\ cwd w' = cwd w /\ stdout w' = stdout w.
Proof.
  intros Hne Hdirs Hname Hrun.
  assert (Hp : Forall plain_name (dirs ++ [name])).
  { apply Forall_app. split; [exact Hdirs|constructor; [exact Hname|constructor]]. }
  unfold save_report, bind in Hrun. rewrite dirname_join in Hrun by assumption.
  unfold os.makedirs in Hrun.
  destruct (os.makedirs_rec _ (pystr.join "/" dirs) w) as [[[]|e] w1] eqn:Em;
    [|discriminate].
  destruct (makedirs_rec_grows dirs Hne Hdirs _ w w1 _ Em) as [(Hc1 & Ho1 & Hf1 & _) Hd1].
  specialize (Hd1 eq_refl).
  destruct (write_text_inv w1 dirs name Hp report w' Hrun) as (rd & -> & Hpar & _).
  rewrite Hc1 in *. cbn [root cwd stdout decompress fstree.set_root].
  set (dest := cwd w ++ dirs ++ [name]).
  set (w2 := fstree.set_root w1 (fstree.update (root w1) dest (File rd true report))).
  assert (Hc2 : cwd w2 = cwd w) by exact Hc1.
  split; [|split; [|split; [|split; [exact Hc1|exact Ho1]]]].
  - apply (text_at_join w2 dirs name Hp). unfold file_content. rewrite Hc2.
    fold dest. unfold w2. cbn [root fstree.set_root]. unfold dest.
    rewrite (app_assoc (cwd w)), lookup_update_same by exact Hpar. reflexivity.
  - intros pre [post ->].
    assert (Hpre : is_dir (fstree.lookup (root w1) (cwd w ++ pre))).
    { apply (is_dir_prefix _ _ post). rewrite <- app_assoc. exact Hd1. }
    destruct (fstree.lookup (root w1) (cwd w ++ pre)) as [[? ? ?|wr e]|] eqn:E;
      try contradiction.
    unfold dest.
    replace (cwd w ++ (pre ++ post) ++ [name]) with ((cwd w ++ pre) ++ (post ++ [name]))
      by (rewrite <- !app_assoc; reflexivity).
    destruct (lookup_update_ancestor (root w1) (cwd w ++ pre) (post ++ [name])
                (File rd true report) wr e (snoc_not_nil _ _) E) as [e' ->].
    exact I.
  - intros q Hq1 Hq2. rewrite lookup_update_other by assumption.
    apply Hf1. intros Hq. apply Hq1. unfold dest.
    rewrite (app_assoc (cwd w) dirs [name]). apply prefix_app_r, Hq.
Qed.

Lemma save_report_success_witness :
  text_at (pystr.join "/" (["output"] ++ ["analysis_report.txt"]))
    (snd (save_report "text" "output/analysis_report.txt"
            (world_with_old_report sample_csv)))
  = Some "text"
  /\ (forall pre, pre `prefix_of` ["output"] ->
        is_dir (fstree.lookup
                  (root (snd (save_report "text" "output/analysis_report.txt"
                                (world_with_old_report sample_csv))))
                  (cwd (world_with_old_report sample_csv) ++ pre)))
  /\ (forall q,
        ~ q `prefix_of` (cwd (world_with_old_report sample_csv)
                         ++ ["output"] ++ ["analysis_report.txt"]) ->
        ~ (cwd (world_with_old_report sample_csv)
           ++ ["output"] ++ ["analysis_report.txt"]) `prefix_of` q ->
        fstree.lookup
          (root (snd (save_report "text" "output/analysis_report.txt"
                        (world_with_old_report sample_csv)))) q
        = fstree.lookup (root (world_with_old_report sample_csv)) q)
  /\ cwd (snd (save_report "text" "output/analysis_report.txt"
                 (world_with_old_report sample_csv)))
     = cwd (world_with_old_report sample_csv)
  /\ stdout (snd (save_report "text" "output/analysis_report.txt"
                    (world_with_old_report sample_csv)))
     = stdout (world_with_old_report sample_csv).
Proof.
  apply (save_report_success "text" ["output"] "analysis_report.txt"
           (world_with_old_report sample_csv)).
  - discriminate.
  - repeat constructor; discriminate.
  - repeat constructor; discriminate.
  - apply pair_of_fst. vm_compute. reflexivity.
Defined.

(** ** The elements of a loaded table *)

Lemma take_length (n : nat) (s : string) : (String.length (pystr.take n s) <= n)%nat.
Proof.
  revert s. induction n as [|n IH]; intros s; [cbn; lia|].
  destruct s as [|c s]; cbn; [lia|]. specialize (IH s). lia.
Qed.

Lemma in_int32_int32 (z : Z) : in_int32 z = true -> int32 z.
Proof. unfold in_int32, int32. intros H. apply andb_true_iff in H as [H1 H2]. lia. Qed.

Lemma to_element_fits (t : list np.pyval) (r : Reading) :
  np.to_element t = Ok r -> fits_dtype r.
Proof.
  unfold np.to_element. intros H.
  set (short := pystr.take 10) in H. set (long := pystr.take 20) in H.
  assert (Hshort : forall s, (String.length (short s) <= 10)%nat)
    by (intros s; apply take_length).
  assert (Hlong : forall s, (String.length (long s) <= 20)%nat)
    by (intros s; apply take_length).
  clearbody short long.
  repeat match type of H with
         | context [match ?x with _ => _ end] => destruct x eqn:?; try discriminate
         end.
  injection H as <-.
  repeat match goal with
         | E : _ && _ = true |- _ => apply andb_true_iff in E as [? ?]
         end.
  unfold fits_dtype, Reading_ok.
  cbn [patient_id timestamp sensor_id heart_rate blood_pressure_systolic
       blood_pressure_diastolic glucose_level].
  refine (conj _ (conj _ (conj _ (conj _ (conj _ (conj _ _))))));
    first [apply Hshort | apply Hlong | apply in_int32_int32; assumption].
Qed.

Lemma sequence_Forall {A B} (f : A -> result B) (P : B -> Prop)
    (l : list A) (out : list B) :
  (forall a b, f a = Ok b -> P b) ->
  np.sequence (List.map f l) = Ok out -> Forall P out.
Proof.
  intros Hf. revert out. induction l as [|a l IH]; intros out H.
  - cbn in H. injection H as <-. constructor.
  - cbn [List.map np.sequence] in H.
    destruct (f a) as [b|e] eqn:Ea; [|discriminate]. cbn [rbind] in H.
    destruct (np.sequence (List.map f l)) as [bs|e]; [|discriminate].
    cbn [rbind] in H. injection H as <-.
    constructor; [apply (Hf a b Ea)|apply IH; reflexivity].
Qed.

Lemma squeeze_items {A} (a : np.ndarray A) : np.items (np.squeeze a) = np.items a.
Proof. destruct a as [x|[|x [|y l]]]; reflexivity. Qed.

(** Every element of a table that [load_data] returns fits the dtype: the
    patient and sensor identifiers have at most 10 characters, the
    timestamp at most 20, and the four integers are within 32 bits. *)
Theorem load_data_elements_fit (path : string) (w w' : world)
    (data : np.ndarray Reading) :
  load_data path w = (Ok data, w') -> Forall fits_dtype (np.items data).
Proof.
  unfold load_data, np.genfromtxt. repeat unfold bind, lift, ret.
  destruct (np.datasource.open_read path w) as [[content|e] w0]; [|discriminate].
  destruct (np.parse content) as [d|e] eqn:Ep; [|discriminate].
  intros H. injection H as <- _. unfold np.parse in Ep.
  destruct (np.value_rows content) as [|first rest].
  - injection Ep as <-. constructor.
  - destruct (forallb _ (first :: rest)); [|discriminate].
    destruct (np.sequence (List.map np.convert_row (first :: rest))) as [ts|e];
      [|discriminate].
    cbn [rbind] in Ep.
    destruct (np.sequence (List.map np.to_element ts)) as [els|e] eqn:Es;
      [|discriminate].
    cbn [rbind] in Ep. injection Ep as <-.
    change (Forall fits_dtype (np.items (np.squeeze (np.Vector els)))).
    rewrite squeeze_items. cbn [np.items].
    apply (sequence_Forall np.to_element fits_dtype ts els to_element_fits Es).
Qed.

Lemma load_data_elements_fit_witness :
  Forall fits_dtype
    (np.items (np.Vector
       [{| patient_id := "P001"; timestamp := "2024-01-15 08:00:00";
           heart_rate := -1; blood_pressure_systolic := 120;
           blood_pressure_diastolic := 80;
           temperature := S754_finite false 9594470 (-18);
           glucose_level := 100; sensor_id := "S001" |};
        {| patient_id := "P002"; timestamp := "2024-01-15 08:05:00";
           heart_rate := 80; blood_pressure_systolic := 140;
           blood_pressure_diastolic := 85;
           temperature := S754_nan;
           glucose_level := 120; sensor_id := "S002" |}])).
Proof.
  apply (load_data_elements_fit input_path (world_with_input malformed_csv)
           (world_with_input malformed_csv)).
  vm_compute. reflexivity.
Defined.

(** ** Blank lines, comments and line endings *)

Lemma split_not_nil (sep : ascii) (s : string) : pystr.split sep s <> [].
Proof.
  destruct s as [|c s]; cbn [pystr.split]; [discriminate|].
  destruct (pystr.is_char c sep); [discriminate|].
  destruct (pystr.split sep s); discriminate.
Qed.

Lemma hd_split_cons (sep c : ascii) (s : string) :
  pystr.is_char c sep = false ->
  hd "" (pystr.split sep (String c s)) = String c (hd "" (pystr.split sep s)).
Proof.
  intros H. cbn [pystr.split]. rewrite H.
  pose proof (split_not_nil sep s) as Hn.
  destruct (pystr.split sep s); [congruence|reflexivity].
Qed.

Lemma space_not_hash (c : ascii) :
  pystr.is_char c " " = true -> pystr.is_char c "#" = false /\ np.is_blank c = true.
Proof.
  unfold pystr.is_char. intros H. apply bool_decide_eq_true in H. subst c.
  split; reflexivity.
Qed.

Lemma hd_split_spaces (spaces : string) :
  pystr.all (fun c => pystr.is_char c " ") spaces = true ->
  hd "" (pystr.split "#" spaces) = spaces.
Proof.
  induction spaces as [|c s IH]; [reflexivity|].
  cbn [pystr.all]. intros H. apply andb_true_iff in H as [Hc Hs].
  rewrite hd_split_cons by apply (space_not_hash c Hc). rewrite (IH Hs). reflexivity.
Qed.

Lemma hd_split_comment (spaces rest : string) :
  pystr.all (fun c => pystr.is_char c " ") spaces = true ->
  hd "" (pystr.split "#" (spaces +:+ "#" +:+ rest)) = spaces.
Proof.
  induction spaces as [|c s IH]; [reflexivity|].
  cbn [pystr.all]. intros H. apply andb_true_iff in H as [Hc Hs].
  rewrite (append_cons c s).
  rewrite hd_split_cons by apply (space_not_hash c Hc). rewrite (IH Hs). reflexivity.
Qed.

Lemma strip_spaces (spaces : string) :
  pystr.all (fun c => pystr.is_char c " ") spaces = true ->
  pystr.strip np.is_blank spaces = "".
Proof.
  unfold pystr.strip. induction spaces as [|c s IH]; [reflexivity|].
  cbn [pystr.all pystr.lstrip]. intros H. apply andb_true_iff in H as [Hc Hs].
  destruct (space_not_hash c Hc) as [_ ->]. exact (IH Hs).
Qed.

Lemma split_line_blank (line : string) :
  blank_or_comment line -> np.split_line line = [].
Proof.
  intros (spaces & rest & Hs & [->| ->]); unfold np.split_line.
  - rewrite (hd_split_spaces _ Hs), (strip_spaces _ Hs). reflexivity.
  - rewrite (hd_split_comment _ _ Hs), (strip_spaces _ Hs). reflexivity.
Qed.

Lemma value_rows_lines (header : string) (lines : list string) :
  no_line_break header -> Forall no_line_break lines ->
  np.value_rows (file_text header lines)
  = List.filter (fun vs => negb (bool_decide (vs = [])))
                (List.map np.split_line lines).
Proof.
  intros Hh Hl. unfold np.value_rows.
  rewrite splitlines_file_text by assumption. reflexivity.
Qed.

Lemma parse_value_rows (c1 c2 : string) :
  np.value_rows c1 = np.value_rows c2 -> np.parse c1 = np.parse c2.
Proof. intros H. unfold np.parse. rewrite H. reflexivity. Qed.

(** A line that holds only spaces, or only spaces before a [#], is not a
    row: from a local path whose extension is not one of a compressed
    stream, [load_data] returns the same from a file with such a line
    among its data lines as from the file without it. *)
Theorem load_data_skips_blank_and_comment
    (header b : string) (l1 l2 : list string) (path : string) (w w' : world) :
  local_path path -> plain_extension path ->
  no_line_break header -> Forall no_line_break (l1 ++ l2) ->
  no_line_break b -> blank_or_comment b ->
  read_text path w = (Ok (file_text header (l1 ++ b :: l2)), w) ->
  read_text path w' = (Ok (file_text header (l1 ++ l2)), w') ->
  fst (load_data path w) = fst (load_data path w').
Proof.
  intros _ Hp Hh Hl Hb Hbc Hr Hr'.
  rewrite (load_data_read _ _ _ Hp Hr), (load_data_read _ _ _ Hp Hr'). cbn [fst].
  apply parse_value_rows.
  apply Forall_app in Hl as [Hl1 Hl2].
  rewrite !value_rows_lines; try assumption.
  - rewrite !List.map_app, !List.filter_app. cbn [List.map List.filter].
    rewrite (split_line_blank b Hbc). reflexivity.
  - apply Forall_app. split; assumption.
  - apply Forall_app. split; [assumption|]. constructor; assumption.
Qed.

Lemma load_data_skips_blank_and_comment_witness :
  fst (load_data input_path
         (world_with_input
            (file_text "patient_id,timestamp"
               (["P001,2024-01-15 08:00:00,95,120,80,36.6,100,S001"]
                ++ "  # checked by hand"
                   :: ["P002,2024-01-15 08:05:00,80,140,85,37.1,120,S002"]))))
  = fst (load_data input_path
           (world_with_input
              (file_text "patient_id,timestamp"
                 (["P001,2024-01-15 08:00:00,95,120,80,36.6,100,S001"]
                  ++ ["P002,2024-01-15 08:05:00,80,140,85,37.1,120,S002"])))).
Proof.
  apply (load_data_skips_blank_and_comment "patient_id,timestamp" "  # checked by hand"
           ["P001,2024-01-15 08:00:00,95,120,80,36.6,100,S001"]
           ["P002,2024-01-15 08:05:00,80,140,85,37.1,120,S002"]).
  - exact input_local_path.
  - exact input_plain_extension.
  - split; reflexivity.
  - repeat constructor.
  - split; reflexivity.
  - exists "  ", " checked by hand". split; [reflexivity|right; reflexivity].
  - vm_compute. reflexivity.
  - vm_compute. reflexivity.
Defined.

Lemma splitlines_line_crlf (l rest : string) :
  no_line_break l ->
  np.splitlines (l +:+ String np.CR NL +:+ rest) = l :: np.splitlines rest.
Proof.
  intros [Hlf Hcr]. induction l as [|c l IH].
  - reflexivity.
  - cbn [pystr.mem] in Hlf, Hcr.
    apply orb_false_iff in Hlf as [Hc1 Hl1]. apply orb_false_iff in Hcr as [Hc2 Hl2].
    rewrite (append_cons c l). cbn [np.splitlines]. rewrite Hc1, Hc2.
    rewrite (IH Hl1 Hl2). reflexivity.
Qed.

Lemma splitlines_file_text_crlf (header : string) (lines : list string) :
  no_line_break header -> Forall no_line_break lines ->
  np.splitlines (file_text_crlf header lines) = header :: lines.
Proof.
  intros Hh Hl. unfold file_text_crlf. rewrite splitlines_line_crlf by assumption.
  f_equal. induction Hl as [|l lines Hl Hls IH]; [reflexivity|].
  cbn [fold_right]. rewrite splitlines_line_crlf by assumption. rewrite IH. reflexivity.
Qed.

(** Line endings do not matter: from a local path whose extension is not
    one of a compressed stream, [load_data] returns from a file whose
    lines end with carriage return and line feed what it returns from the
    file with the same lines ended by line feeds. *)
Theorem load_data_crlf
    (header : string) (lines : list string) (path : string) (w w' : world) :
  local_path path -> plain_extension path ->
  no_line_break header -> Forall no_line_break lines ->
  read_text path w = (Ok (file_text_crlf header lines), w) ->
  read_text path w' = (Ok (file_text header lines), w') ->
  fst (load_data path w) = fst (load_data path w').
Proof.
  intros _ Hp Hh Hl Hr Hr'.
  rewrite (load_data_read _ _ _ Hp Hr), (load_data_read _ _ _ Hp Hr'). cbn [fst].
  apply parse_value_rows. unfold np.value_rows.
  rewrite splitlines_file_text_crlf, splitlines_file_text by assumption. reflexivity.
Qed.

Lemma load_data_crlf_witness :
  fst (load_data input_path
         (world_with_input
            (file_text_crlf "patient_id,timestamp"
               ["P001,2024-01-15 08:00:00,95,120,80,36.6,100,S001";
                "P002,2024-01-15 08:05:00,80,140,85,37.1,120,S002"])))
  = fst (load_data input_path
           (world_with_input
              (file_text "patient_id,timestamp"
                 ["P001,2024-01-15 08:00:00,95,120,80,36.6,100,S001";
                  "P002,2024-01-15 08:05:00,80,140,85,37.1,120,S002"]))).
Proof.
  apply (load_data_crlf "patient_id,timestamp"
           ["P001,2024-01-15 08:00:00,95,120,80,36.6,100,S001";
            "P002,2024-01-15 08:05:00,80,140,85,37.1,120,S002"]).
  - exact input_local_path.
  - exact input_plain_extension.
  - split; reflexivity.
  - repeat constructor.
  - vm_compute. reflexivity.
  - vm_compute. reflexivity.
Defined.

(** ** The report of a table *)

(** The two dictionaries that [calculate_statistics] and
    [find_abnormal_readings] build from a table always have the keys that
    [generate_report] reads: the report of a table never raises KeyError,
    and it is the template filled with the three rendered means and the
    three counts of the elements of the table. *)
Theorem generate_report_of_table (data : np.ndarray Reading) (total : Z) :
  generate_report (calculate_statistics data) (find_abnormal_readings data) total
  = Ok (report_template total
          (pyfloat.format_1f (np.mean (np.map heart_rate data)))
          (pyfloat.format_1f (np.mean (np.map blood_pressure_systolic data)))
          (pyfloat.format_1f (np.mean (np.map glucose_level data)))
          (count_exceeding heart_rate 90 (np.items data))
          (count_exceeding blood_pressure_systolic 130 (np.items data))
          (count_exceeding glucose_level 110 (np.items data))).
Proof.
  apply generate_report_ok; try reflexivity;
    unfold find_abnormal_readings; rewrite !sum_bool_exceeding; reflexivity.
Qed.

(** ** An output directory that cannot be made *)



